(** * VoteHubPH Admin: the moderation dashboard's synchronisation logic

    A shallow embedding of the client-side logic of the admin dashboard
    component ([AdminDashboard]): the post fetcher and poller, the
    approve / reject handlers with their optimistic updates, the
    status filter, and the party-list search / create workflow.

    React state hooks and refs become the fields of one [State] record.
    Every handler is a computation in a small monad that threads the
    state, collects the observable effects (requests, console
    diagnostics, timers) and can complete abruptly, so that the
    [try] / [catch] / [finally] structure of the source is kept.  An
    [async] handler is cut at each [await]: one definition per segment,
    the awaited outcome being an argument of the next segment. *)

From stdpp Require Import gmap strings list fin_maps.
From Stdlib Require Import ZArith.

Local Open Scope Z_scope.

(** ** Data model *)

(** A JavaScript string is a [string] whose characters stand for its
    code units, so that [String.length] is its [length]; a [number]
    that holds an identifier or a [Date.now()] reading (milliseconds)
    is a [Z]. *)

(** [status: "pending" | "approved" | "rejected"] *)
Inductive Status : Type := pending | approved | rejected.

(** [filter: "all" | "pending" | "approved" | "rejected"] *)
Inductive FilterValue : Type := all | only (s : Status).

Global Instance Status_eq_dec : EqDecision Status.
Proof. solve_decision. Defined.

Global Instance FilterValue_eq_dec : EqDecision FilterValue.
Proof. solve_decision. Defined.

Record Education : Type := { edu_level : string; school : string }.
Record Image : Type := { url : string; caption : string }.
Record UserRef : Type :=
  { user_ref_id : string; user_name : string; email : string }.

(** The interface declares [platform: string | null]; the party-list
    creation handler also tests [typeof post.platform === 'string'] and
    lets a value that is already a list through, so the three shapes
    the handler distinguishes are kept. *)
Inductive PlatformValue : Type :=
| PlatformNull
| PlatformText (s : string)
| PlatformList (l : list string).

Record Post : Type := {
  id : Z;
  user_id : string;
  name : string;
  level : string;
  position : string;
  bio : string;
  platform : PlatformValue;
  education : option (list Education);
  achievements : option (list string);
  images : option (list Image);
  profile_photo : option string;
  party : option string;
  party_list_managed : option bool;
  status : Status;
  admin_notes : option string;
  user : UserRef;
  created_at : string;
  updated_at : string
}.

(** The objects returned by the party-list search endpoint. *)
Record PartyList : Type := {
  pl_id : Z;
  pl_name : string;
  acronym : option string;
  sector : option string;
  member_count : Z
}.

(** [{ ...post, status: s }] *)
Definition with_status (s : Status) (p : Post) : Post :=
  Build_Post (id p) (user_id p) (name p) (level p) (position p) (bio p)
    (platform p) (education p) (achievements p) (images p) (profile_photo p)
    (party p) (party_list_managed p) s (admin_notes p) (user p)
    (created_at p) (updated_at p).

(** [{ ...post, status: s, admin_notes: n }] *)
Definition with_status_notes (s : Status) (n : string) (p : Post) : Post :=
  Build_Post (id p) (user_id p) (name p) (level p) (position p) (bio p)
    (platform p) (education p) (achievements p) (images p) (profile_photo p)
    (party p) (party_list_managed p) s (Some n) (user p)
    (created_at p) (updated_at p).

(** [{ ...p, party_list_managed: true }] *)
Definition with_managed (p : Post) : Post :=
  Build_Post (id p) (user_id p) (name p) (level p) (position p) (bio p)
    (platform p) (education p) (achievements p) (images p) (profile_photo p)
    (party p) (Some true) (status p) (admin_notes p) (user p)
    (created_at p) (updated_at p).

(** ** Component state: the [useState] hooks and the [useRef] cells *)

Definition TimerId : Type := nat.

Record State : Type := {
  isAuthenticated : option bool;
  posts : list Post;
  filteredPosts : list Post;
  isLoading : bool;
  isRefreshing : bool;
  filter : FilterValue;
  rejectNotes : gmap Z string;
  processingIds : gset Z;
  expandedSections : gmap string bool;
  partyListModals : gmap Z bool;
  existingPartyLists : gmap Z (list PartyList);
  searchPartyList : gmap Z string;
  isSearchingPartyList : gmap Z bool;
  selectedPartyListId : gmap Z (option Z);
  isProcessingPartyList : gmap Z bool;
  intervalRef : option TimerId;
  lastFetchRef : Z;
  isInitialMount : bool
}.

(** The state of the first render. *)
Definition initialState : State :=
  Build_State None [] [] true false (only pending) ∅ ∅ ∅ ∅ ∅ ∅ ∅ ∅ ∅
    None 0 true.

Definition setIsAuthenticated (v : option bool) (s : State) : State :=
  Build_State v (posts s) (filteredPosts s) (isLoading s) (isRefreshing s)
    (filter s) (rejectNotes s) (processingIds s) (expandedSections s)
    (partyListModals s) (existingPartyLists s) (searchPartyList s)
    (isSearchingPartyList s) (selectedPartyListId s) (isProcessingPartyList s)
    (intervalRef s) (lastFetchRef s) (isInitialMount s).

Definition setPosts (v : list Post) (s : State) : State :=
  Build_State (isAuthenticated s) v (filteredPosts s) (isLoading s)
    (isRefreshing s) (filter s) (rejectNotes s) (processingIds s)
    (expandedSections s) (partyListModals s) (existingPartyLists s)
    (searchPartyList s) (isSearchingPartyList s) (selectedPartyListId s)
    (isProcessingPartyList s) (intervalRef s) (lastFetchRef s)
    (isInitialMount s).

Definition setFilteredPosts (v : list Post) (s : State) : State :=
  Build_State (isAuthenticated s) (posts s) v (isLoading s) (isRefreshing s)
    (filter s) (rejectNotes s) (processingIds s) (expandedSections s)
    (partyListModals s) (existingPartyLists s) (searchPartyList s)
    (isSearchingPartyList s) (selectedPartyListId s) (isProcessingPartyList s)
    (intervalRef s) (lastFetchRef s) (isInitialMount s).

Definition setIsLoading (v : bool) (s : State) : State :=
  Build_State (isAuthenticated s) (posts s) (filteredPosts s) v
    (isRefreshing s) (filter s) (rejectNotes s) (processingIds s)
    (expandedSections s) (partyListModals s) (existingPartyLists s)
    (searchPartyList s) (isSearchingPartyList s) (selectedPartyListId s)
    (isProcessingPartyList s) (intervalRef s) (lastFetchRef s)
    (isInitialMount s).

Definition setIsRefreshing (v : bool) (s : State) : State :=
  Build_State (isAuthenticated s) (posts s) (filteredPosts s) (isLoading s) v
    (filter s) (rejectNotes s) (processingIds s) (expandedSections s)
    (partyListModals s) (existingPartyLists s) (searchPartyList s)
    (isSearchingPartyList s) (selectedPartyListId s) (isProcessingPartyList s)
    (intervalRef s) (lastFetchRef s) (isInitialMount s).

Definition setFilter (v : FilterValue) (s : State) : State :=
  Build_State (isAuthenticated s) (posts s) (filteredPosts s) (isLoading s)
    (isRefreshing s) v (rejectNotes s) (processingIds s) (expandedSections s)
    (partyListModals s) (existingPartyLists s) (searchPartyList s)
    (isSearchingPartyList s) (selectedPartyListId s) (isProcessingPartyList s)
    (intervalRef s) (lastFetchRef s) (isInitialMount s).

Definition setRejectNotes (v : gmap Z string) (s : State) : State :=
  Build_State (isAuthenticated s) (posts s) (filteredPosts s) (isLoading s)
    (isRefreshing s) (filter s) v (processingIds s) (expandedSections s)
    (partyListModals s) (existingPartyLists s) (searchPartyList s)
    (isSearchingPartyList s) (selectedPartyListId s) (isProcessingPartyList s)
    (intervalRef s) (lastFetchRef s) (isInitialMount s).

Definition setProcessingIds (v : gset Z) (s : State) : State :=
  Build_State (isAuthenticated s) (posts s) (filteredPosts s) (isLoading s)
    (isRefreshing s) (filter s) (rejectNotes s) v (expandedSections s)
    (partyListModals s) (existingPartyLists s) (searchPartyList s)
    (isSearchingPartyList s) (selectedPartyListId s) (isProcessingPartyList s)
    (intervalRef s) (lastFetchRef s) (isInitialMount s).

Definition setExpandedSections (v : gmap string bool) (s : State) : State :=
  Build_State (isAuthenticated s) (posts s) (filteredPosts s) (isLoading s)
    (isRefreshing s) (filter s) (rejectNotes s) (processingIds s) v
    (partyListModals s) (existingPartyLists s) (searchPartyList s)
    (isSearchingPartyList s) (selectedPartyListId s) (isProcessingPartyList s)
    (intervalRef s) (lastFetchRef s) (isInitialMount s).

Definition setPartyListModals (v : gmap Z bool) (s : State) : State :=
  Build_State (isAuthenticated s) (posts s) (filteredPosts s) (isLoading s)
    (isRefreshing s) (filter s) (rejectNotes s) (processingIds s)
    (expandedSections s) v (existingPartyLists s) (searchPartyList s)
    (isSearchingPartyList s) (selectedPartyListId s) (isProcessingPartyList s)
    (intervalRef s) (lastFetchRef s) (isInitialMount s).

Definition setExistingPartyLists (v : gmap Z (list PartyList)) (s : State) : State :=
  Build_State (isAuthenticated s) (posts s) (filteredPosts s) (isLoading s)
    (isRefreshing s) (filter s) (rejectNotes s) (processingIds s)
    (expandedSections s) (partyListModals s) v (searchPartyList s)
    (isSearchingPartyList s) (selectedPartyListId s) (isProcessingPartyList s)
    (intervalRef s) (lastFetchRef s) (isInitialMount s).

Definition setSearchPartyList (v : gmap Z string) (s : State) : State :=
  Build_State (isAuthenticated s) (posts s) (filteredPosts s) (isLoading s)
    (isRefreshing s) (filter s) (rejectNotes s) (processingIds s)
    (expandedSections s) (partyListModals s) (existingPartyLists s) v
    (isSearchingPartyList s) (selectedPartyListId s) (isProcessingPartyList s)
    (intervalRef s) (lastFetchRef s) (isInitialMount s).

Definition setIsSearchingPartyList (v : gmap Z bool) (s : State) : State :=
  Build_State (isAuthenticated s) (posts s) (filteredPosts s) (isLoading s)
    (isRefreshing s) (filter s) (rejectNotes s) (processingIds s)
    (expandedSections s) (partyListModals s) (existingPartyLists s)
    (searchPartyList s) v (selectedPartyListId s) (isProcessingPartyList s)
    (intervalRef s) (lastFetchRef s) (isInitialMount s).

Definition setSelectedPartyListId (v : gmap Z (option Z)) (s : State) : State :=
  Build_State (isAuthenticated s) (posts s) (filteredPosts s) (isLoading s)
    (isRefreshing s) (filter s) (rejectNotes s) (processingIds s)
    (expandedSections s) (partyListModals s) (existingPartyLists s)
    (searchPartyList s) (isSearchingPartyList s) v (isProcessingPartyList s)
    (intervalRef s) (lastFetchRef s) (isInitialMount s).

Definition setIsProcessingPartyList (v : gmap Z bool) (s : State) : State :=
  Build_State (isAuthenticated s) (posts s) (filteredPosts s) (isLoading s)
    (isRefreshing s) (filter s) (rejectNotes s) (processingIds s)
    (expandedSections s) (partyListModals s) (existingPartyLists s)
    (searchPartyList s) (isSearchingPartyList s) (selectedPartyListId s) v
    (intervalRef s) (lastFetchRef s) (isInitialMount s).

Definition setIntervalRef (v : option TimerId) (s : State) : State :=
  Build_State (isAuthenticated s) (posts s) (filteredPosts s) (isLoading s)
    (isRefreshing s) (filter s) (rejectNotes s) (processingIds s)
    (expandedSections s) (partyListModals s) (existingPartyLists s)
    (searchPartyList s) (isSearchingPartyList s) (selectedPartyListId s)
    (isProcessingPartyList s) v (lastFetchRef s) (isInitialMount s).

Definition setLastFetchRef (v : Z) (s : State) : State :=
  Build_State (isAuthenticated s) (posts s) (filteredPosts s) (isLoading s)
    (isRefreshing s) (filter s) (rejectNotes s) (processingIds s)
    (expandedSections s) (partyListModals s) (existingPartyLists s)
    (searchPartyList s) (isSearchingPartyList s) (selectedPartyListId s)
    (isProcessingPartyList s) (intervalRef s) v (isInitialMount s).

Definition setIsInitialMount (v : bool) (s : State) : State :=
  Build_State (isAuthenticated s) (posts s) (filteredPosts s) (isLoading s)
    (isRefreshing s) (filter s) (rejectNotes s) (processingIds s)
    (expandedSections s) (partyListModals s) (existingPartyLists s)
    (searchPartyList s) (isSearchingPartyList s) (selectedPartyListId s)
    (isProcessingPartyList s) (intervalRef s) (lastFetchRef s) v.

(** ** Requests and observable effects *)

(** [body] of [POST /admin/partylists]. *)
Record CreatePartyListBody : Type := {
  body_name : option string;
  body_post_id : Z;
  body_platform : list string
}.

Inductive Request : Type :=
| GetPosts
| PostApprove (postId : Z)
| PostReject (postId : Z) (notes : string)
| GetPartyListSearch (q : string)
| PostPartyListMember (partyListId : Z) (postId : Z)
| PostPartyList (body : CreatePartyListBody).

Inductive Effect : Type :=
| Fetch (r : Request)
| ConsoleError
| Alert
| SetInterval (h : TimerId) (period : Z)
| ClearInterval (h : TimerId).

Definition is_timer (e : Effect) : bool :=
  match e with SetInterval _ _ => true | _ => false end.

(** The requests among a trace of effects, in order. *)
Fixpoint requests (es : list Effect) : list Request :=
  match es with
  | [] => []
  | Fetch r :: es' => r :: requests es'
  | _ :: es' => requests es'
  end.

(** ** The handler monad *)

Inductive Completion (A : Type) : Type :=
| Normal (a : A)
| Thrown.
Arguments Normal {A} a.
Arguments Thrown {A}.

Definition Act (A : Type) : Type :=
  State → Completion A * State * list Effect.

Global Instance Act_ret : MRet Act := λ A a st, (Normal a, st, []).

Global Instance Act_bind : MBind Act := λ A B f m st,
  match m st with
  | (Normal a, st1, e1) =>
      match f a st1 with (r, st2, e2) => (r, st2, e1 ++ e2) end
  | (Thrown, st1, e1) => (Thrown, st1, e1)
  end.

Definition gets {A : Type} (f : State → A) : Act A :=
  λ st, (Normal (f st), st, []).

Definition modify (f : State → State) : Act unit :=
  λ st, (Normal (), f st, []).

Definition emit (e : Effect) : Act unit :=
  λ st, (Normal (), st, [e]).

Definition throw {A : Type} : Act A :=
  λ st, (Thrown, st, []).

(** [try { body } catch { handler }] *)
Definition try_catch {A : Type} (body handler : Act A) : Act A := λ st,
  match body st with
  | (Thrown, st1, e1) =>
      match handler st1 with (r, st2, e2) => (r, st2, e1 ++ e2) end
  | r => r
  end.

(** [try { body } finally { fin }] *)
Definition try_finally {A : Type} (body : Act A) (fin : Act unit) : Act A :=
  λ st,
  match body st with
  | (r, st1, e1) =>
      match fin st1 with
      | (Normal _, st2, e2) => (r, st2, e1 ++ e2)
      | (Thrown, st2, e2) => (Thrown, st2, e1 ++ e2)
      end
  end.

Definition when (b : bool) (a : Act unit) : Act unit :=
  if b then a else mret ().

Definition result {A : Type} (r : Completion A * State * list Effect) :
  Completion A := r.1.1.
Definition state_of {A : Type} (r : Completion A * State * list Effect) :
  State := r.1.2.
Definition effects_of {A : Type} (r : Completion A * State * list Effect) :
  list Effect := r.2.

(** ** Outcomes of an awaited request *)

(** What [await fetch(...)] followed by [await response.json()] can
    produce: the promise rejects (transport failure), or a response
    arrives with [response.ok] true or false.  [body] is [None] when
    [response.json()] rejects. *)
Inductive Response (A : Type) : Type :=
| FetchRejected
| HttpOk (body : option A)
| HttpNotOk (httpStatus : Z) (body : option A).
Arguments FetchRejected {A}.
Arguments HttpOk {A} body.
Arguments HttpNotOk {A} httpStatus body.

(** A parsed body of [GET /admin/posts], as [Array.isArray] sees it. *)
Inductive PostsPayload : Type :=
| PostsArray (data : list Post)
| NotAnArray.

(** A parsed body on which a handler reads [.message]: reading it
    throws when the body is [null]; on any other value it gives the
    message, if there is one. *)
Inductive ErrorBody : Type :=
| ErrorNull
| ErrorValue (message : option string).

(** JavaScript truthiness of [isAuthenticated : boolean | null]. *)
Definition truthy (a : option bool) : bool :=
  match a with Some true => true | _ => false end.

(** [o || d] on an optional string: the empty string is falsy. *)
Definition or_default (o : option string) (d : string) : string :=
  match o with
  | Some s => if bool_decide (s = ""%string) then d else s
  | None => d
  end.

Definition defaultRejectNotes : string := "Post rejected by admin"%string.

(** The cool-down of the poller and the period of its timer, in ms. *)
Definition coolDown : Z := 10000.
Definition pollPeriod : Z := 60000.

(** [post.platform ? (typeof post.platform === 'string' ? [post.platform]
    : post.platform) : []] *)
Definition normalisePlatform (p : PlatformValue) : list string :=
  match p with
  | PlatformNull => []
  | PlatformText s => if bool_decide (s = ""%string) then [] else [s]
  | PlatformList l => l
  end.

Definition createPartyListBody (post : Post) : CreatePartyListBody :=
  {| body_name := party post;
     body_post_id := id post;
     body_platform := normalisePlatform (platform post) |}.

(** [filter === "all" ? posts : posts.filter((p) => p.status === filter)] *)
Definition filteredView (f : FilterValue) (ps : list Post) : list Post :=
  match f with
  | all => ps
  | only s => List.filter (λ p, bool_decide (status p = s)) ps
  end.

(** [posts.map(post => post.id === postId ? { ...post, status: 'approved' }
    : post)] *)
Definition approveLocally (postId : Z) (ps : list Post) : list Post :=
  map (λ post, if bool_decide (id post = postId)
               then with_status approved post else post) ps.

(** [posts.map(post => post.id === postId ? { ...post, status: 'rejected',
    admin_notes: adminNotes } : post)] *)
Definition rejectLocally (postId : Z) (adminNotes : string)
    (ps : list Post) : list Post :=
  map (λ post, if bool_decide (id post = postId)
               then with_status_notes rejected adminNotes post else post) ps.

(** [prev.map(p => p.id === post.id ? { ...p, party_list_managed: true }
    : p)] *)
Definition markManaged (postId : Z) (ps : list Post) : list Post :=
  map (λ p, if bool_decide (id p = postId) then with_managed p else p) ps.

(** ** The handlers *)

Section Dashboard.

(** [fetchPosts] is created by [useCallback(..., [])]: the callback
    is built once, by the first render, and its body reads
    [isAuthenticated] from the closure of that render, not from the
    current state.  The handlers are written once for any value
    [auth] of that closure; every caller below goes through the same
    callback.  The value the closure holds in the component is
    [capturedAuth], defined after the section. *)
Variable auth : option bool.

(** *** Post fetcher *)

(** [fetchPosts(silent)] up to [await fetch(...)]: the session guard,
    the indicator, the request.  Returns whether a request went out. *)
Definition fetchPosts_call (silent : bool) : Act bool :=
  if negb (truthy auth) then mret false
  else
    (if negb silent then modify (setIsLoading true)
     else modify (setIsRefreshing true));;
    emit (Fetch GetPosts);;
    mret true.

(** [fetchPosts] from the moment the awaited request settles, at
    clock reading [now], to the end of its [finally] block. *)
Definition fetchPosts_settle (now : Z) (r : Response PostsPayload) :
    Act unit :=
  try_finally
    (try_catch
       (match r with
        | FetchRejected => throw
        | HttpOk None => throw
        | HttpOk (Some (PostsArray data)) =>
            modify (setPosts data);;
            modify (setLastFetchRef now)
        | HttpOk (Some NotAnArray) =>
            emit ConsoleError;;
            modify (setPosts [])
        | HttpNotOk _ body =>
            try_catch
              (match body with
               | Some _ => emit ConsoleError
               | None => throw
               end)
              (emit ConsoleError);;
            modify (setPosts [])
        end)
       (emit ConsoleError;;
        modify (setPosts [])))
    (modify (setIsLoading false);;
     modify (setIsRefreshing false)).

(** One whole run of [fetchPosts(silent)] whose request settles with
    [r] at time [now]. *)
Definition fetchPosts (silent : bool) (now : Z)
    (r : Response PostsPayload) : Act unit :=
  issued ← fetchPosts_call silent;
  if issued : bool then fetchPosts_settle now r else mret ().

(** *** Mount effects *)

(** The authentication check on mount; [stored] is
    [localStorage.getItem('admin_authenticated') === 'true']. *)
Definition authCheckEffect (stored : bool) : Act unit :=
  modify (setIsAuthenticated (Some stored));;
  when (negb stored) (modify (setIsLoading false)).

(** The initial-fetch effect.  [fetchPosts()] is not awaited, so the
    [isInitialMount] ref is cleared as soon as the request is out. *)
Definition initialFetchEffect : Act bool :=
  a ← gets isAuthenticated;
  match a with
  | Some true =>
      issued ← fetchPosts_call false;
      modify (setIsInitialMount false);;
      mret issued
  | _ => mret false
  end.

(** *** Poller *)

(** [setupAutoRefresh]; [h] is the handle [setInterval] returns. *)
Definition setupAutoRefresh (h : TimerId) : Act unit :=
  cur ← gets intervalRef;
  match cur with
  | Some h0 => emit (ClearInterval h0)
  | None => mret ()
  end;;
  emit (SetInterval h pollPeriod);;
  modify (setIntervalRef (Some h)).

(** The body of the interval callback; [visible] is
    [document.visibilityState === 'visible'], [now] is [Date.now()]. *)
Definition intervalTick (visible : bool) (now : Z) : Act bool :=
  if visible then
    last ← gets lastFetchRef;
    if now - last >? coolDown then fetchPosts_call true else mret false
  else mret false.

(** [handleVisibilityChange] *)
Definition handleVisibilityChange (visible : bool) (now : Z)
    (h : TimerId) : Act bool :=
  if visible then
    last ← gets lastFetchRef;
    issued ← (if now - last >? coolDown then fetchPosts_call true
              else mret false);
    setupAutoRefresh h;;
    mret issued
  else
    cur ← gets intervalRef;
    match cur with
    | Some h0 => emit (ClearInterval h0)
    | None => mret ()
    end;;
    mret false.

(** [handleManualRefresh] *)
Definition handleManualRefresh : Act bool := fetchPosts_call false.

(** *** Filter *)

(** The effect that keeps [filteredPosts] in step with [filter] and
    [posts]. *)
Definition filteredPostsEffect : Act unit :=
  f ← gets filter;
  ps ← gets posts;
  modify (setFilteredPosts (filteredView f ps)).

(** Body of the effect declared with the dependency list
    [[filter, fetchPosts, posts.length]]. *)
Definition filterChangeEffect : Act bool :=
  initial ← gets isInitialMount;
  ps ← gets posts;
  if negb initial && bool_decide (0 < length ps)%nat
  then fetchPosts_call true
  else mret false.

(** The dependencies of that effect that can change between renders
    ([fetchPosts] is the same callback in every render). *)
Definition filterChangeDeps (st : State) : FilterValue * nat :=
  (filter st, length (posts st)).

(** After a render, React runs the effect when a dependency differs
    from its value at the previous render, [prev]. *)
Definition filterChangeEffect_commit (prev : State) : Act bool :=
  cur ← gets filterChangeDeps;
  if bool_decide (cur = filterChangeDeps prev) then mret false
  else filterChangeEffect.

(** [setFilter(f)] from a click on a tab, the render it causes and
    the effects of that render. *)
Definition changeFilter (f : FilterValue) : Act bool :=
  prev ← gets (λ st, st);
  modify (setFilter f);;
  filteredPostsEffect;;
  filterChangeEffect_commit prev.

(** *** Moderation actions *)

(** The textarea of a pending post:
    [setRejectNotes(prev => ({ ...prev, [post.id]: e.target.value }))] *)
Definition onRejectNotesChange (postId : Z) (value : string) : Act unit :=
  modify (λ st, setRejectNotes (<[postId := value]> (rejectNotes st)) st).

(** [handleApprove(postId)] up to [await fetch(...)].  The handler
    reads [processingIds] from the render it was created in; the
    result is that captured set, which the [finally] block uses
    again, or [None] when the guard returned early. *)
Definition handleApprove_click (postId : Z) : Act (option (gset Z)) :=
  ids ← gets processingIds;
  if bool_decide (postId ∈ ids) then mret None
  else
    modify (setProcessingIds ({[postId]} ∪ ids));;
    modify (λ st, setPosts (approveLocally postId (posts st)) st);;
    emit (Fetch (PostApprove postId));;
    mret (Some ids).

(** The [try] block of a moderation handler once its request has
    settled: every branch hands over to [fetchPosts(true)]. *)
Definition moderation_response (r : Response unit) : Act bool :=
  try_catch
    (match r with
     | FetchRejected => throw
     | HttpOk _ => fetchPosts_call true
     | HttpNotOk _ _ => fetchPosts_call true
     end)
    (emit ConsoleError;;
     fetchPosts_call true).

(** The [finally] block: [new Set(processingIds)] is built from the
    set captured when the handler was called. *)
Definition moderation_finally (postId : Z) (captured : gset Z) : Act unit :=
  modify (setProcessingIds (captured ∖ {[postId]})).

(** The rest of a moderation handler after its own request settled
    with [r]; the reconciling fetch settles with [rf] at [now]. *)
Definition moderation_settle (postId : Z) (captured : gset Z)
    (r : Response unit) (now : Z) (rf : Response PostsPayload) : Act unit :=
  try_finally
    (issued ← moderation_response r;
     if issued : bool then fetchPosts_settle now rf else mret ())
    (moderation_finally postId captured).

(** One whole run of [handleApprove(postId)]. *)
Definition handleApprove (postId : Z) (r : Response unit) (now : Z)
    (rf : Response PostsPayload) : Act unit :=
  c ← handleApprove_click postId;
  match c with
  | None => mret ()
  | Some captured => moderation_settle postId captured r now rf
  end.

(** [handleReject(postId)] up to [await fetch(...)]. *)
Definition handleReject_click (postId : Z) : Act (option (gset Z)) :=
  ids ← gets processingIds;
  if bool_decide (postId ∈ ids) then mret None
  else
    modify (setProcessingIds ({[postId]} ∪ ids));;
    notes ← gets rejectNotes;
    let adminNotes := or_default (notes !! postId) defaultRejectNotes in
    modify (λ st, setPosts (rejectLocally postId adminNotes (posts st)) st);;
    modify (λ st, setRejectNotes (delete postId (rejectNotes st)) st);;
    emit (Fetch (PostReject postId adminNotes));;
    mret (Some ids).

(** One whole run of [handleReject(postId)]. *)
Definition handleReject (postId : Z) (r : Response unit) (now : Z)
    (rf : Response PostsPayload) : Act unit :=
  c ← handleReject_click postId;
  match c with
  | None => mret ()
  | Some captured => moderation_settle postId captured r now rf
  end.


Definition reject (postId : Z) (notes : string) (r : Response unit)
    (now : Z) (rf : Response PostsPayload) : Act unit :=
  onRejectNotesChange postId notes;;
  handleReject postId r now rf.

(** *** Party-list manager *)

(** The search box's [onChange] up to [await fetch(...)].  Returns
    whether a search request went out. *)
Definition partyListSearch_change (postId : Z) (query : string) : Act bool :=
  modify (λ st, setSearchPartyList (<[postId := query]> (searchPartyList st)) st);;
  modify (λ st, setSelectedPartyListId
                  (<[postId := None]> (selectedPartyListId st)) st);;
  if bool_decide (2 ≤ String.length query)%nat then
    modify (λ st, setIsSearchingPartyList
                    (<[postId := true]> (isSearchingPartyList st)) st);;
    emit (Fetch (GetPartyListSearch query));;
    mret true
  else
    modify (λ st, setExistingPartyLists
                    (<[postId := []]> (existingPartyLists st)) st);;
    mret false.

(** The same handler once the search request has settled. *)
Definition partyListSearch_settle (postId : Z)
    (r : Response (list PartyList)) : Act unit :=
  try_finally
    (try_catch
       (match r with
        | FetchRejected => throw
        | HttpOk None => throw
        | HttpOk (Some data) =>
            modify (λ st, setExistingPartyLists
                            (<[postId := data]> (existingPartyLists st)) st)
        | HttpNotOk _ _ => mret ()
        end)
       (emit ConsoleError))
    (modify (λ st, setIsSearchingPartyList
                     (<[postId := false]> (isSearchingPartyList st)) st)).

(** A click on a search result. *)
Definition selectPartyList (postId : Z) (partyListId : Z) : Act unit :=
  modify (λ st, setSelectedPartyListId
                  (<[postId := Some partyListId]> (selectedPartyListId st)) st).

(** "Create New Party List" up to [await fetch(...)]. *)
Definition createPartyList_click (post : Post) : Act unit :=
  modify (λ st, setIsProcessingPartyList
                  (<[id post := true]> (isProcessingPartyList st)) st);;
  emit (Fetch (PostPartyList (createPartyListBody post))).

(** The [try] block of that handler once the creation request has
    settled, up to [await fetchPosts()]. *)
Definition createPartyList_response (post : Post) (r : Response ErrorBody) :
    Act bool :=
  try_catch
    (match r with
     | FetchRejected => throw
     | HttpOk _ =>
         emit Alert;;
         modify (λ st, setPartyListModals
                         (<[id post := false]> (partyListModals st)) st);;
         modify (λ st, setSearchPartyList
                         (<[id post := ""%string]> (searchPartyList st)) st);;
         modify (λ st, setPosts (markManaged (id post) (posts st)) st);;
         fetchPosts_call false
     | HttpNotOk _ (Some (ErrorValue _)) => emit Alert;; mret false
     | HttpNotOk _ (Some ErrorNull) => throw
     | HttpNotOk _ None => throw
     end)
    (emit ConsoleError;;
     emit Alert;;
     mret false).

(** Its [finally] block. *)
Definition createPartyList_finally (post : Post) : Act unit :=
  modify (λ st, setIsProcessingPartyList
                  (<[id post := false]> (isProcessingPartyList st)) st).

End Dashboard.

(** The value of [isAuthenticated] in the closure of [fetchPosts].
    The dependency list of [useCallback] is empty, so every render
    gets the callback the first render built, and in the first render
    the hook has its initial value, [null]. *)
Definition capturedAuth : option bool := isAuthenticated initialState.

(** ** Auxiliary definitions for the statements *)

(** The post of a fixture: only the fields the examples look at vary. *)
Definition samplePost (i : Z) (s : Status) : Post :=
  Build_Post i "u1" "Juan" "national" "senator" "" PlatformNull None None None
    None None None s None (Build_UserRef "u1" "Juan" "juan@example.org")
    "2024-01-01" "2024-01-01".

(** Number of approval requests for [postId] in a trace. *)
Definition approvals (postId : Z) (es : list Effect) : nat :=
  length (List.filter
            (λ r, match r with
                  | PostApprove i => bool_decide (i = postId)
                  | _ => false
                  end) (requests es)).


(** ** The rest of the dashboard *)

(** *** What a render shows *)

Global Instance Education_eq_dec : EqDecision Education.
Proof. solve_decision. Defined.

Global Instance Image_eq_dec : EqDecision Image.
Proof. solve_decision. Defined.

Global Instance UserRef_eq_dec : EqDecision UserRef.
Proof. solve_decision. Defined.

Global Instance PlatformValue_eq_dec : EqDecision PlatformValue.
Proof. solve_decision. Defined.

Global Instance Post_eq_dec : EqDecision Post.
Proof. solve_decision. Defined.

(** JavaScript truthiness of an optional string: [null], [undefined]
    and the empty string are falsy. *)
Definition truthy_text (o : option string) : bool :=
  match o with
  | Some s => negb (bool_decide (s = ""%string))
  | None => false
  end.

(** Truthiness of [selectedPartyListId[post.id]], a [number | null]
    that may be missing: [undefined], [null] and [0] are falsy. *)
Definition truthy_selection (o : option (option Z)) : bool :=
  match o with
  | Some (Some n) => negb (bool_decide (n = 0))
  | _ => false
  end.

(** [flags[key] || false] on a record of booleans. *)
Definition flag_at `{Countable K} (m : gmap K bool) (k : K) : bool :=
  match m !! k with Some b => b | None => false end.

(** The three returns of the component. *)
Inductive View : Type := RedirectToLogin | LoadingSpinner | DashboardPage.

Definition render (st : State) : View :=
  match isAuthenticated st with
  | Some false => RedirectToLogin
  | a =>
      if isLoading st || negb (bool_decide (is_Some a))
      then LoadingSpinner
      else DashboardPage
  end.

(** The counters of the header cards. *)
Record Stats : Type := {
  total : nat;
  n_pending : nat;
  n_approved : nat;
  n_rejected : nat
}.

Definition count_status (s : Status) (ps : list Post) : nat :=
  length (List.filter (λ p, bool_decide (status p = s)) ps).

Definition stats (ps : list Post) : Stats :=
  {| total := length ps;
     n_pending := count_status pending ps;
     n_approved := count_status approved ps;
     n_rejected := count_status rejected ps |}.

(** [disabled] of the Refresh button. *)
Definition refreshDisabled (st : State) : bool :=
  isRefreshing st || isLoading st.

(** The block with the notes box and the two buttons is rendered for
    pending posts only; both buttons share one [disabled]. *)
Definition showsActions (p : Post) : bool :=
  bool_decide (status p = pending).

Definition moderationDisabled (st : State) (p : Post) : bool :=
  bool_decide (id p ∈ processingIds st).

(** [post.party && post.status === "pending" && !post.party_list_managed] *)
Definition showsPartyListNotice (p : Post) : bool :=
  truthy_text (party p) && bool_decide (status p = pending)
  && negb (truthy (party_list_managed p)).

(** The modals are rendered by [filteredPosts.map(post =>
    partyListModals[post.id] && post.party && ...)]: a post has its
    modal on screen when it is in the filtered view, its flag is up and
    it names a party. *)
Definition showsPartyListModal (st : State) (p : Post) : bool :=
  bool_decide (p ∈ filteredPosts st)
  && flag_at (partyListModals st) (id p) && truthy_text (party p).

(** [disabled] of the two buttons of the modal. *)
Definition attachDisabled (st : State) (p : Post) : bool :=
  negb (truthy_selection (selectedPartyListId st !! id p))
  || flag_at (isProcessingPartyList st) (id p).

Definition createDisabled (st : State) (p : Post) : bool :=
  flag_at (isProcessingPartyList st) (id p).

(** [shouldTruncate && !isExpanded ? text.substring(0, limit) + '...'
    : text], with [shouldTruncate = text && text.length > limit]. *)
Definition shouldTruncate (limit : nat) (text : string) : bool :=
  bool_decide (limit < String.length text)%nat.

Definition displayText (limit : nat) (text : string) (isExpanded : bool) :
    string :=
  if shouldTruncate limit text && negb isExpanded
  then String.append (String.substring 0 limit text) "..."
  else text.

(** *** Small handlers *)

(** The Show More / Show Less button of the section with key [key]:
    [setExpandedSections(prev => ({ ...prev, [key]: !isExpanded }))],
    [isExpanded] being the value the render computed. *)
Definition toggleSection (key : string) : Act unit :=
  isExpanded ← gets (λ st, flag_at (expandedSections st) key);
  modify (λ st, setExpandedSections
                  (<[key := negb isExpanded]> (expandedSections st)) st).



(** The cleanup of the auto-refresh effect. *)
Definition autoRefreshCleanup : Act unit :=
  cur ← gets intervalRef;
  match cur with
  | Some h0 => emit (ClearInterval h0)
  | None => mret ()
  end.

(** *** Attaching to an existing party list *)

(** "Add to Existing Party List" up to [await fetch(...)].  Returns
    the party list the request names, or [None] when the handler
    stopped at [if (!partyListId)]. *)
Definition attachPartyList_click (post : Post) : Act (option Z) :=
  sel ← gets selectedPartyListId;
  match sel !! id post with
  | Some (Some partyListId) =>
      if bool_decide (partyListId = 0) then emit Alert;; mret None
      else
        modify (λ st, setIsProcessingPartyList
                        (<[id post := true]> (isProcessingPartyList st)) st);;
        emit (Fetch (PostPartyListMember partyListId (id post)));;
        mret (Some partyListId)
  | _ => emit Alert;; mret None
  end.

(** Its [try] block once the request has settled, up to
    [await fetchPosts()]. *)
Definition attachPartyList_response (a : option bool) (post : Post)
    (r : Response ErrorBody) : Act bool :=
  try_catch
    (match r with
     | FetchRejected => throw
     | HttpOk _ =>
         emit Alert;;
         modify (λ st, setPartyListModals
                         (<[id post := false]> (partyListModals st)) st);;
         modify (λ st, setSearchPartyList
                         (<[id post := ""%string]> (searchPartyList st)) st);;
         modify (λ st, setSelectedPartyListId
                         (<[id post := None]> (selectedPartyListId st)) st);;
         modify (λ st, setPosts (markManaged (id post) (posts st)) st);;
         fetchPosts_call a false
     | HttpNotOk _ (Some (ErrorValue _)) => emit Alert;; mret false
     | HttpNotOk _ (Some ErrorNull) => throw
     | HttpNotOk _ None => throw
     end)
    (emit ConsoleError;;
     emit Alert;;
     mret false).

(** Its [finally] block. *)
Definition attachPartyList_finally (post : Post) : Act unit :=
  modify (λ st, setIsProcessingPartyList
                  (<[id post := false]> (isProcessingPartyList st)) st).

(** One whole run of each of the two party-list actions; the awaited
    [fetchPosts()] settles with [rf] at [now]. *)
Definition attachPartyList (a : option bool) (post : Post)
    (r : Response ErrorBody)
    (now : Z) (rf : Response PostsPayload) : Act unit :=
  c ← attachPartyList_click post;
  match c with
  | None => mret ()
  | Some _ =>
      try_finally
        (issued ← attachPartyList_response a post r;
         if issued : bool then fetchPosts_settle now rf else mret ())
        (attachPartyList_finally post)
  end.

Definition createPartyList (a : option bool) (post : Post)
    (r : Response ErrorBody)
    (now : Z) (rf : Response PostsPayload) : Act unit :=
  createPartyList_click post;;
  try_finally
    (issued ← createPartyList_response a post r;
     if issued : bool then fetchPosts_settle now rf else mret ())
    (createPartyList_finally post).

(** *** The poller as a sequence of events *)

Inductive PollEvent : Type :=
| EvSetup (h : TimerId)
| EvTick (visible : bool) (now : Z)
| EvVisibility (visible : bool) (now : Z) (h : TimerId)
| EvCleanup.

Definition pollStep (a : option bool) (ev : PollEvent) : Act unit :=
  match ev with
  | EvSetup h => setupAutoRefresh h
  | EvTick visible now => intervalTick a visible now;; mret ()
  | EvVisibility visible now h => handleVisibilityChange a visible now h;; mret ()
  | EvCleanup => autoRefreshCleanup
  end.

Fixpoint pollRun (a : option bool) (evs : list PollEvent) : Act unit :=
  match evs with
  | [] => mret ()
  | ev :: rest => pollStep a ev;; pollRun a rest
  end.

(** The timers that are running after a trace, given those running
    before it. *)
Fixpoint liveTimers (live : gset TimerId) (es : list Effect) : gset TimerId :=
  match es with
  | [] => live
  | SetInterval h _ :: es' => liveTimers ({[h]} ∪ live) es'
  | ClearInterval h :: es' => liveTimers (live ∖ {[h]}) es'
  | _ :: es' => liveTimers live es'
  end.

(** The timers [intervalRef] accounts for. *)
Definition trackedTimers (st : State) : gset TimerId :=
  match intervalRef st with Some h => {[h]} | None => ∅ end.

(** [localStorage.getItem('admin_authenticated') === 'true'] *)
Definition storedAuthenticated (storage : gmap string string) : bool :=
  bool_decide (storage !! "admin_authenticated"%string = Some "true"%string).

(** ** The login page ([AdminLoginPage]) *)

Module Login.

(** The hooks of the page, and the browser's [localStorage], which
    the dashboard reads on mount. *)
Record Page : Type := {
  email : string;
  password : string;
  isLoading : bool;
  error : string;
  localStorage : gmap string string
}.

Definition initialPage (storage : gmap string string) : Page :=
  {| email := "admin@votehubph"; password := ""; isLoading := false;
     error := ""; localStorage := storage |}.

Definition setEmail (v : string) (s : Page) : Page :=
  Build_Page v (password s) (isLoading s) (error s) (localStorage s).
Definition setPassword (v : string) (s : Page) : Page :=
  Build_Page (email s) v (isLoading s) (error s) (localStorage s).
Definition setIsLoading (v : bool) (s : Page) : Page :=
  Build_Page (email s) (password s) v (error s) (localStorage s).
Definition setError (v : string) (s : Page) : Page :=
  Build_Page (email s) (password s) (isLoading s) v (localStorage s).
Definition setItem (k v : string) (s : Page) : Page :=
  Build_Page (email s) (password s) (isLoading s) (error s)
    (<[k := v]> (localStorage s)).

(** The parsed body of the answer of [POST /admin/login].  On
    [null], reading [data.message] or [data.user] throws.  Otherwise
    [message] is [data.message]; [user] is [None] when [data.user] is
    missing, so that [data.user.id] throws, and else the string
    [localStorage.setItem] stores for [data.user.id]. *)
Inductive LoginData : Type :=
| DataNull
| DataValue (message : option string) (user : option string).

Inductive Effect : Type :=
| PostLogin (email password : string)
| Navigate (path : string)
| ConsoleError.

Definition Act (A : Type) : Type :=
  Page → Completion A * Page * list Effect.

#[export] Instance Act_ret : MRet Act := λ A a st, (Normal a, st, []).

#[export] Instance Act_bind : MBind Act := λ A B f m st,
  match m st with
  | (Normal a, st1, e1) =>
      match f a st1 with (r, st2, e2) => (r, st2, e1 ++ e2) end
  | (Thrown, st1, e1) => (Thrown, st1, e1)
  end.

Definition gets {A : Type} (f : Page → A) : Act A :=
  λ st, (Normal (f st), st, []).
Definition modify (f : Page → Page) : Act unit :=
  λ st, (Normal (), f st, []).
Definition emit (e : Effect) : Act unit :=
  λ st, (Normal (), st, [e]).
Definition throw {A : Type} : Act A :=
  λ st, (Thrown, st, []).

Definition try_catch {A : Type} (body handler : Act A) : Act A := λ st,
  match body st with
  | (Thrown, st1, e1) =>
      match handler st1 with (r, st2, e2) => (r, st2, e1 ++ e2) end
  | r => r
  end.

Definition try_finally {A : Type} (body : Act A) (fin : Act unit) : Act A :=
  λ st,
  match body st with
  | (r, st1, e1) =>
      match fin st1 with
      | (Normal _, st2, e2) => (r, st2, e1 ++ e2)
      | (Thrown, st2, e2) => (Thrown, st2, e1 ++ e2)
      end
  end.

(** [handleLogin] up to [await fetch(...)]. *)
Definition handleLogin_submit : Act unit :=
  modify (setIsLoading true);;
  modify (setError "");;
  e ← gets email;
  p ← gets password;
  emit (PostLogin e p).

(** [handleLogin] once the request has settled.  The body is parsed
    before [response.ok] is looked at. *)
Definition handleLogin_settle (r : Response LoginData) : Act unit :=
  try_finally
    (try_catch
       (match r with
        | FetchRejected => throw
        | HttpOk None => throw
        | HttpNotOk _ None => throw
        | HttpOk (Some data) =>
            modify (setItem "admin_authenticated" "true");;
            match data with
            | DataValue _ (Some uid) => modify (setItem "admin_user_id" uid)
            | _ => throw
            end;;
            emit (Navigate "/")
        | HttpNotOk _ (Some (DataValue message _)) =>
            modify (setError (or_default message "Login failed"))
        | HttpNotOk _ (Some DataNull) => throw
        end)
       (emit ConsoleError;;
        modify (setError "Failed to connect to server")))
    (modify (setIsLoading false)).

(** One whole submission. *)
Definition handleLogin (r : Response LoginData) : Act unit :=
  handleLogin_submit;;
  handleLogin_settle r.

(** [disabled] of the Sign In button. *)
Definition submitDisabled (s : Page) : bool := isLoading s.

Definition result {A : Type} (r : Completion A * Page * list Effect) :
  Completion A := r.1.1.
Definition state_of {A : Type} (r : Completion A * Page * list Effect) :
  Page := r.1.2.
Definition effects_of {A : Type} (r : Completion A * Page * list Effect) :
  list Effect := r.2.

End Login.

(** What the optimistic approval does to one post. *)
Definition approved_as (postId : Z) (p p' : Post) : Prop :=
  id p' = id p ∧
  admin_notes p' = admin_notes p ∧
  (id p = postId → status p' = approved) ∧
  (id p ≠ postId → p' = p).

(** Number of requests for the collection in a trace. *)
Definition postsFetches (es : list Effect) : nat :=
  length (List.filter (λ r, match r with GetPosts => true | _ => false end)
            (requests es)).

(** *** The handlers that call [fetchPosts] or write the collection

    Each event is one whole run of a handler: where the handler sends
    a request for the collection, the event carries the clock reading
    [t] and the answer [rf] with which it settles. *)
Inductive DashEvent : Type :=
| DSetup (h : TimerId)
| DTick (visible : bool) (now t : Z) (rf : Response PostsPayload)
| DVisibility (visible : bool) (now : Z) (h : TimerId) (t : Z)
    (rf : Response PostsPayload)
| DCleanup
| DRefresh (t : Z) (rf : Response PostsPayload)
| DFilter (f : FilterValue) (t : Z) (rf : Response PostsPayload)
| DNotes (postId : Z) (text : string)
| DApprove (postId : Z) (r : Response unit) (t : Z)
    (rf : Response PostsPayload)
| DReject (postId : Z) (r : Response unit) (t : Z)
    (rf : Response PostsPayload)
| DAttach (post : Post) (r : Response ErrorBody) (t : Z)
    (rf : Response PostsPayload)
| DCreate (post : Post) (r : Response ErrorBody) (t : Z)
    (rf : Response PostsPayload).

Definition settleIf (issued : bool) (t : Z) (rf : Response PostsPayload) :
    Act unit :=
  if issued then fetchPosts_settle t rf else mret ().

Definition dashStep (a : option bool) (ev : DashEvent) : Act unit :=
  match ev with
  | DSetup h => setupAutoRefresh h
  | DTick visible now t rf =>
      issued ← intervalTick a visible now; settleIf issued t rf
  | DVisibility visible now h t rf =>
      issued ← handleVisibilityChange a visible now h; settleIf issued t rf
  | DCleanup => autoRefreshCleanup
  | DRefresh t rf => fetchPosts a false t rf
  | DFilter f t rf => issued ← changeFilter a f; settleIf issued t rf
  | DNotes postId text => onRejectNotesChange postId text
  | DApprove postId r t rf => handleApprove a postId r t rf
  | DReject postId r t rf => handleReject a postId r t rf
  | DAttach post r t rf => attachPartyList a post r t rf
  | DCreate post r t rf => createPartyList a post r t rf
  end.

Fixpoint dashRun (a : option bool) (evs : list DashEvent) : Act unit :=
  match evs with
  | [] => mret ()
  | ev :: rest => dashStep a ev;; dashRun a rest
  end.

(** What no handler changes as long as no answer with the collection
    arrives: the session, the two indicators, the timestamp, and which
    posts the collection holds, in which order. *)
Definition unloaded (st st' : State) : Prop :=
  isAuthenticated st' = isAuthenticated st ∧
  isLoading st' = isLoading st ∧
  isRefreshing st' = isRefreshing st ∧
  lastFetchRef st' = lastFetchRef st ∧
  map id (posts st') = map id (posts st).

(** The dashboard of a browser with a stored session, once its two
    mount effects have run. *)
Definition mountedDashboard : State :=
  state_of (initialFetchEffect capturedAuth
              (state_of (authCheckEffect true initialState))).

(** What marking a post as managed does to one post. *)
Definition managed_as (postId : Z) (p p' : Post) : Prop :=
  id p' = id p ∧
  status p' = status p ∧
  admin_notes p' = admin_notes p ∧
  (id p = postId → party_list_managed p' = Some true) ∧
  (id p ≠ postId → p' = p).

(** * Properties *)

(** Unfolds the monad so that a handler applied to a state computes. *)
Ltac run :=
  unfold result, state_of, effects_of, when, gets, modify, emit, throw,
    try_catch, try_finally, mbind, mret, Act_bind, Act_ret in *;
  cbn in *.

Lemma truthy_true (a : option bool) : truthy a = true ↔ a = Some true.
Proof. destruct a as [[]|]; cbn; split; congruence. Qed.

Lemma fetchPosts_call_guarded (a : option bool) (silent : bool) (st : State) :
  a ≠ Some true → fetchPosts_call a silent st = (Normal false, st, []).
Proof.
  intros Ha. unfold fetchPosts_call.
  destruct (truthy a) eqn:E; [apply truthy_true in E; contradiction|reflexivity].
Qed.

(** C9.  A call of [fetchPosts] whose session guard does not see an
    authenticated session does nothing: no request goes out, no
    diagnostic is written, and the whole state (the post collection,
    both indicators, the last-fetch timestamp and everything else) is
    the state it was called in, whatever the server would have
    answered. *)
Theorem fetchPosts_unauthenticated_noop
    (a : option bool) (silent : bool) (now : Z) (r : Response PostsPayload)
    (st : State) :
  a ≠ Some true →
  fetchPosts_call a silent st = (Normal false, st, []) ∧
  fetchPosts a silent now r st = (Normal (), st, []).
Proof.
  intros Ha. split; [by apply fetchPosts_call_guarded|].
  unfold fetchPosts. unfold mbind at 1, Act_bind.
  rewrite fetchPosts_call_guarded by done. reflexivity.
Qed.

Lemma fetchPosts_unauthenticated_noop_witness :
  (None : option bool) ≠ Some true ∧
  fetchPosts None true 5 (HttpOk (Some (PostsArray []))) initialState
  = (Normal (), initialState, []).
Proof.
  assert (H : (None : option bool) ≠ Some true) by discriminate.
  split; [exact H|].
  exact (proj2 (fetchPosts_unauthenticated_noop None true 5
                  (HttpOk (Some (PostsArray []))) initialState H)).
Defined.

(** C3.  In the component the guard of [fetchPosts] reads the value
    the first render captured, [null].  Whatever the state says about
    the session, whatever the kind of fetch and whatever the server
    would answer, a run of [fetchPosts] sends no request and leaves the
    state as it is.  In particular, for a browser with a stored
    session whose mount check has set [isAuthenticated] to [true], and
    a server ready to answer with a one-post array, the collection is
    not replaced and no timestamp is recorded. *)
Theorem fetchPosts_captured_guard
    (silent : bool) (now : Z) (r : Response PostsPayload) (st : State) :
  let session := state_of (authCheckEffect true initialState) in
  let answer := HttpOk (Some (PostsArray [samplePost 1 pending])) in
  capturedAuth = None ∧
  fetchPosts capturedAuth silent now r st = (Normal (), st, []) ∧
  isAuthenticated session = Some true ∧
  fetchPosts capturedAuth false 1700000000000 answer session
    = (Normal (), session, []) ∧
  posts session = [] ∧
  lastFetchRef session = 0.
Proof.
  cbn zeta. split; [reflexivity|]. split; [|repeat split].
  unfold fetchPosts. unfold mbind at 1, Act_bind.
  rewrite fetchPosts_call_guarded by discriminate. reflexivity.
Qed.

(** C10.  The timestamp is written by the array branch of [fetchPosts]
    and by nothing else: a run that is answered by anything but an
    array payload leaves it as it was, so the poller's cool-down test
    gives the same verdict after such a run as before it; the segments
    of the other handlers that run before an answer arrives leave it
    alone too. *)
Theorem lastFetchRef_written_only_on_array
    (a : option bool) (silent : bool) (now : Z) (r : Response PostsPayload)
    (st : State) :
  (∀ data, r ≠ HttpOk (Some (PostsArray data))) →
  lastFetchRef (state_of (fetchPosts a silent now r st)) = lastFetchRef st ∧
  (∀ now', result (intervalTick a true now'
                     (state_of (fetchPosts a silent now r st)))
           = result (intervalTick a true now' st)) ∧
  lastFetchRef (state_of (fetchPosts_call a silent st)) = lastFetchRef st ∧
  (∀ postId,
     lastFetchRef (state_of (handleApprove_click postId st)) = lastFetchRef st ∧
     lastFetchRef (state_of (handleReject_click postId st)) = lastFetchRef st).
Proof.
  intros Hr.
  assert (H1 : lastFetchRef (state_of (fetchPosts a silent now r st))
               = lastFetchRef st).
  { unfold fetchPosts, fetchPosts_call, fetchPosts_settle.
    destruct (truthy a), silent, r as [|[[data|]|]|code [b|]]; run;
      try reflexivity; by destruct (Hr data). }
  split; [exact H1|]. split; [|split].
  - intros now'. unfold intervalTick. run. rewrite H1.
    destruct (now' - lastFetchRef st >? coolDown); [|reflexivity].
    unfold fetchPosts_call. destruct (truthy a); reflexivity.
  - unfold fetchPosts_call. destruct (truthy a), silent; reflexivity.
  - intros postId. unfold handleApprove_click, handleReject_click. run.
    split; case_bool_decide; reflexivity.
Qed.

Lemma lastFetchRef_written_only_on_array_witness :
  lastFetchRef (state_of (fetchPosts (Some true) true 1700000000000
                            (HttpNotOk 500 None) (setLastFetchRef 42 initialState)))
  = 42.
Proof.
  refine (proj1 (lastFetchRef_written_only_on_array (Some true) true
                   1700000000000 (HttpNotOk 500 None)
                   (setLastFetchRef 42 initialState) _)).
  intros data. discriminate.
Defined.

(** ** Status filter *)

Lemma filteredView_only_sublist (s : Status) (ps : list Post) :
  sublist (filteredView (only s) ps) ps.
Proof.
  induction ps as [|p ps IH]; cbn; [constructor|].
  case_bool_decide; by constructor.
Qed.

Lemma filteredView_only_complement (s : Status) (ps : list Post) :
  filteredView (only s) ps
    ++ List.filter (λ p, negb (bool_decide (status p = s))) ps ≡ₚ ps.
Proof.
  induction ps as [|p ps IH]; cbn; [done|].
  case_bool_decide; cbn.
  - by rewrite IH.
  - rewrite <- Permutation_middle. by rewrite IH.
Qed.

Lemma filteredView_only_elem (s : Status) (ps : list Post) (p : Post) :
  p ∈ filteredView (only s) ps ↔ p ∈ ps ∧ status p = s.
Proof.
  cbn. rewrite !list_elem_of_In, filter_In, bool_decide_eq_true. done.
Qed.

(** C6.  The filtered view the effect stores is computed from the
    current filter and collection.  Under [all] it is the collection
    itself.  Under a status it is the collection with exactly the posts
    of another status struck out: it is a subsequence of the
    collection, a post is in it just when it is in the collection with
    that status, and putting the struck-out posts (none of which has
    the status) back gives the collection up to order. *)
Theorem filteredPosts_exact (st : State) :
  let view := filteredPosts (state_of (filteredPostsEffect st)) in
  match filter st with
  | all => view = posts st
  | only s =>
      sublist view (posts st) ∧
      (∀ p, p ∈ view ↔ p ∈ posts st ∧ status p = s) ∧
      ∃ rest, Forall (λ p, status p ≠ s) rest ∧ view ++ rest ≡ₚ posts st
  end.
Proof.
  unfold filteredPostsEffect. run.
  destruct (filter st) as [|s]; [reflexivity|].
  split; [apply filteredView_only_sublist|].
  split; [apply filteredView_only_elem|].
  eexists. split; [|apply filteredView_only_complement].
  apply Forall_forall. intros p Hp.
  apply list_elem_of_In, filter_In in Hp as [_ Hp].
  apply negb_true_iff, bool_decide_eq_false in Hp. exact Hp.
Qed.

(** ** In-flight guard of the moderation handlers *)

Lemma handleApprove_click_in_flight (postId : Z) (st : State) :
  postId ∈ processingIds st →
  handleApprove_click postId st = (Normal None, st, []).
Proof.
  intros Hin. unfold handleApprove_click. run.
  by rewrite bool_decide_eq_true_2.
Qed.

Lemma handleApprove_click_marks (postId : Z) (st : State) :
  postId ∈ processingIds (state_of (handleApprove_click postId st)).
Proof.
  unfold handleApprove_click. run.
  case_bool_decide; cbn; set_solver.
Qed.

(** C2.  Pressing Approve on a post a second time, right after the
    first press and before anything of the first has settled, does
    nothing: the second call (made by the handler of the render that
    followed the first press) returns at its guard with the state it
    found and sends no request, because the first left the identifier
    in [processingIds]; the two presses together send at most one
    approval request for the post. *)
Theorem approve_twice_once (postId : Z) (st : State) :
  let first := handleApprove_click postId st in
  let second := handleApprove_click postId (state_of first) in
  postId ∈ processingIds (state_of first) ∧
  second = (Normal None, state_of first, []) ∧
  (approvals postId (effects_of first ++ effects_of second) ≤ 1)%nat.
Proof.
  intros first second.
  pose proof (handleApprove_click_marks postId st) as Hin.
  split; [exact Hin|].
  assert (Hsecond : second = (Normal None, state_of first, []))
    by (by apply handleApprove_click_in_flight).
  split; [exact Hsecond|].
  rewrite Hsecond. subst first. clear.
  unfold handleApprove_click, approvals. run.
  case_bool_decide; cbn; [lia|].
  rewrite bool_decide_eq_true_2 by done. cbn. lia.
Qed.

(** The [finally] block restores the set captured at the press, so a
    handler that settles drops every identifier added after its own
    press.  Here approvals of posts 1 and 2 overlap; when the one of
    post 1 settles, post 2 is no longer marked although its request is
    still out, and a further press on post 2 sends a second request. *)
Example processingIds_after_overlap :
  let st0 := setPosts [samplePost 1 pending; samplePost 2 pending]
               initialState in
  let st1 := state_of (handleApprove_click 1 st0) in
  let st2 := state_of (handleApprove_click 2 st1) in
  let st3 := state_of (moderation_finally 1 ∅ st2) in
  processingIds st2 = {[1; 2]} ∧
  processingIds st3 = ∅ ∧
  requests (effects_of (handleApprove_click 2 st3)) = [PostApprove 2].
Proof.
  repeat split; vm_compute; reflexivity.
Qed.

(** ** Optimistic rejection *)


Lemma rejectLocally_elem (postId : Z) (n : string) (ps : list Post) (p' : Post) :
  p' ∈ rejectLocally postId n ps → id p' = postId →
  status p' = rejected ∧ admin_notes p' = Some n.
Proof.
  intros Hin Hid. apply list_elem_of_In, in_map_iff in Hin as (p & <- & _).
  revert Hid. case_bool_decide; cbn; [done|]. intros; contradiction.
Qed.





(** ** The poller after the cool-down *)


(** ** Re-fetch on filter change *)

(** The effect on the very first render, where nothing precedes it:
    the flag is still up and no request goes out. *)
Lemma filterChangeEffect_first_render (a : option bool) :
  filterChangeEffect a initialState = (Normal false, initialState, []).
Proof. reflexivity. Qed.


(** ** Party-list search *)

(** C7.  The search box of one post.  A query shorter than two
    characters (so one of length 1) sends nothing and sets that post's
    results to the empty list.  A query of two characters or more sends
    one search request for it and leaves the results alone until an
    answer comes.  When an answer with a body arrives, the post's
    results are that body, whatever they were before, and the results
    kept for the other posts do not change; an answer that is an HTTP
    failure, or a transport failure, leaves all results as they are. *)
Theorem partyListSearch_gate (postId : Z) (query : string) (st : State) :
  let out := partyListSearch_change postId query st in
  ((String.length query < 2)%nat →
     result out = Normal false ∧
     effects_of out = [] ∧
     existingPartyLists (state_of out) !! postId = Some []) ∧
  ((2 ≤ String.length query)%nat →
     result out = Normal true ∧
     effects_of out = [Fetch (GetPartyListSearch query)] ∧
     existingPartyLists (state_of out) = existingPartyLists st) ∧
  (∀ (data : list PartyList) (st' : State),
     let landed := partyListSearch_settle postId (HttpOk (Some data)) st' in
     result landed = Normal () ∧
     requests (effects_of landed) = [] ∧
     existingPartyLists (state_of landed) !! postId = Some data ∧
     ∀ other, other ≠ postId →
       existingPartyLists (state_of landed) !! other
       = existingPartyLists st' !! other) ∧
  (∀ (code : Z) (body : option (list PartyList)) (st' : State),
     existingPartyLists
       (state_of (partyListSearch_settle postId (HttpNotOk code body) st'))
     = existingPartyLists st' ∧
     existingPartyLists
       (state_of (partyListSearch_settle postId FetchRejected st'))
     = existingPartyLists st').
Proof.
  unfold partyListSearch_change, partyListSearch_settle. run.
  split; [|split; [|split; [|done]]].
  - intros Hlen. rewrite bool_decide_eq_false_2 by lia. cbn.
    rewrite lookup_insert_eq. done.
  - intros Hlen. rewrite bool_decide_eq_true_2 by lia. done.
  - intros data st'. rewrite lookup_insert_eq.
    repeat split. intros other Hother. by rewrite lookup_insert_ne.
Qed.

Lemma partyListSearch_gate_witness :
  (effects_of (partyListSearch_change 7 "a" initialState) = [] ∧
   existingPartyLists (state_of (partyListSearch_change 7 "a" initialState))
     !! 7 = Some []) ∧
  effects_of (partyListSearch_change 7 "ab" initialState)
  = [Fetch (GetPartyListSearch "ab")].
Proof.
  split.
  - refine (proj2 (proj1 (partyListSearch_gate 7 "a" initialState) _)).
    cbn. lia.
  - refine (proj1 (proj2 (proj1 (proj2
              (partyListSearch_gate 7 "ab" initialState)) _))).
    cbn. lia.
Defined.

(** ** Party-list creation *)

(** C8, as amended.  "Create New Party List" sends one request whose
    body carries the post's party name, the post's identifier and the
    platform as a list of strings: the empty list when the platform is
    null or the empty string, the one-element list of the text when it
    is a non-empty string, and the list itself when it already is one. *)
Theorem createPartyList_request (post : Post) (st : State) :
  ∃ body,
    effects_of (createPartyList_click post st) = [Fetch (PostPartyList body)] ∧
    body_name body = party post ∧
    body_post_id body = id post ∧
    (platform post = PlatformNull → body_platform body = []) ∧
    (platform post = PlatformText "" → body_platform body = []) ∧
    (∀ s, s ≠ ""%string → platform post = PlatformText s →
          body_platform body = [s]) ∧
    (∀ l, platform post = PlatformList l → body_platform body = l).
Proof.
  exists (createPartyListBody post). unfold createPartyList_click. run.
  repeat split; try (intros ->; reflexivity).
  - intros s Hs ->. cbn. by rewrite bool_decide_eq_false_2.
  - intros l ->. reflexivity.
Qed.

(** C8, as worded, fails: a platform that is the empty string is a
    string, and it is sent as the empty list, not as a one-element
    list. *)
Lemma createPartyList_empty_text_counterexample :
  let post := Build_Post 1 "u1" "Juan" "national" "senator" ""
                (PlatformText "") None None None None (Some "Bayan"%string)
                None pending None
                (Build_UserRef "u1" "Juan" "juan@example.org")
                "2024-01-01" "2024-01-01" in
  requests (effects_of (createPartyList_click post initialState))
  = [PostPartyList {| body_name := Some "Bayan"%string; body_post_id := 1;
                      body_platform := [] |}] ∧
  body_platform (createPartyListBody post) ≠ [""%string].
Proof. split; [reflexivity|discriminate]. Qed.

Lemma createPartyList_request_witness :
  ∃ body,
    effects_of (createPartyList_click
                  (Build_Post 1 "u1" "Juan" "national" "senator" ""
                     (PlatformText "Jobs for all") None None None None
                     (Some "Bayan"%string) None pending None
                     (Build_UserRef "u1" "Juan" "juan@example.org")
                     "2024-01-01" "2024-01-01") initialState)
    = [Fetch (PostPartyList body)] ∧
    body_platform body = ["Jobs for all"%string].
Proof.
  destruct (createPartyList_request
              (Build_Post 1 "u1" "Juan" "national" "senator" ""
                 (PlatformText "Jobs for all") None None None None
                 (Some "Bayan"%string) None pending None
                 (Build_UserRef "u1" "Juan" "juan@example.org")
                 "2024-01-01" "2024-01-01") initialState)
    as (body & Heff & _ & _ & _ & _ & Htext & _).
  exists body. split; [exact Heff|].
  apply (Htext "Jobs for all"%string); [discriminate|reflexivity].
Defined.

(** * Further properties of the dashboard *)

#[local] Set Warnings "-clear-no-such-hyp".

(** ** Header counters *)

Lemma count_status_total (ps : list Post) :
  length ps = (count_status pending ps + count_status approved ps
               + count_status rejected ps)%nat.
Proof.
  unfold count_status. induction ps as [|p ps IH]; [reflexivity|].
  cbn. destruct (status p); repeat case_bool_decide; try congruence; cbn; lia.
Qed.

(** X1.  The three status counters of the header add up to the total,
    and each counter is the number of posts its tab shows. *)
Theorem stats_partition (ps : list Post) :
  total (stats ps)
  = (n_pending (stats ps) + n_approved (stats ps) + n_rejected (stats ps))%nat ∧
  total (stats ps) = length (filteredView all ps) ∧
  n_pending (stats ps) = length (filteredView (only pending) ps) ∧
  n_approved (stats ps) = length (filteredView (only approved) ps) ∧
  n_rejected (stats ps) = length (filteredView (only rejected) ps).
Proof.
  split; [apply count_status_total|]. repeat split.
Qed.

(** ** Optimistic approval *)

Lemma approveLocally_pointwise (postId : Z) (ps : list Post) :
  Forall2 (approved_as postId) ps (approveLocally postId ps).
Proof.
  induction ps as [|p ps IH]; cbn; constructor; [|exact IH].
  unfold approved_as. case_bool_decide; cbn; naive_solver.
Qed.

(** X2.  Pressing Approve on a post that is not being processed sends
    one approval request, marks the identifier in flight and, position
    by position, turns every post with the identifier into an approved
    one with its notes kept, leaving the other posts as they are.  The
    text typed in the notes boxes is not touched. *)
Theorem approve_optimistic (postId : Z) (st : State) :
  postId ∉ processingIds st →
  let out := handleApprove_click postId st in
  result out = Normal (Some (processingIds st)) ∧
  effects_of out = [Fetch (PostApprove postId)] ∧
  Forall2 (approved_as postId) (posts st) (posts (state_of out)) ∧
  processingIds (state_of out) = {[postId]} ∪ processingIds st ∧
  rejectNotes (state_of out) = rejectNotes st.
Proof.
  intros Hfresh. unfold handleApprove_click. run.
  rewrite bool_decide_eq_false_2 by done. cbn.
  repeat split. apply approveLocally_pointwise.
Qed.

Lemma approve_optimistic_witness :
  let st := setPosts [samplePost 1 pending; samplePost 2 pending]
              initialState in
  (1 ∉ processingIds st) ∧
  (effects_of (handleApprove_click 1 st) = [Fetch (PostApprove 1)]).
Proof.
  assert (Hfresh : 1 ∉ processingIds
            (setPosts [samplePost 1 pending; samplePost 2 pending] initialState))
    by apply not_elem_of_empty.
  split; [exact Hfresh|].
  exact (proj1 (proj2 (approve_optimistic 1
    (setPosts [samplePost 1 pending; samplePost 2 pending] initialState)
    Hfresh))).
Defined.

(** ** A moderated post and the tabs *)

Lemma approveLocally_elem (postId : Z) (ps : list Post) (p' : Post) :
  p' ∈ approveLocally postId ps → id p' = postId → status p' = approved.
Proof.
  intros Hin Hid. apply list_elem_of_In, in_map_iff in Hin as (p & <- & _).
  revert Hid. case_bool_decide; cbn; [done|]. intros; contradiction.
Qed.

(** X3.  Right after a press on Approve or on Reject of a post that is
    not being processed, and with the [pending] tab selected, the
    filtered view holds no post with that identifier any more, and no
    post with that identifier shows the notes box and the two buttons,
    whichever tab is selected. *)
Theorem moderated_post_leaves_pending_tab (postId : Z) (st : State) :
  postId ∉ processingIds st →
  let approvedSt := state_of (handleApprove_click postId st) in
  let rejectedSt := state_of (handleReject_click postId st) in
  (∀ p, p ∈ posts approvedSt → id p = postId → showsActions p = false) ∧
  (∀ p, p ∈ posts rejectedSt → id p = postId → showsActions p = false) ∧
  (filter st = only pending →
   (∀ p, p ∈ filteredPosts (state_of (filteredPostsEffect approvedSt)) →
         id p ≠ postId) ∧
   (∀ p, p ∈ filteredPosts (state_of (filteredPostsEffect rejectedSt)) →
         id p ≠ postId)).
Proof.
  intros Hfresh. unfold handleApprove_click, handleReject_click,
    filteredPostsEffect, showsActions.
  run. rewrite !bool_decide_eq_false_2 by done. cbn.
  assert (Ha : ∀ p, p ∈ approveLocally postId (posts st) → id p = postId →
                    status p = approved) by apply approveLocally_elem.
  assert (Hr : ∀ p, p ∈ rejectLocally postId
                      (or_default (rejectNotes st !! postId) defaultRejectNotes)
                      (posts st) → id p = postId → status p = rejected)
    by (intros p Hp Hid; by eapply rejectLocally_elem).
  split; [|split].
  - intros p Hp Hid. apply bool_decide_eq_false_2. rewrite (Ha p Hp Hid). done.
  - intros p Hp Hid. apply bool_decide_eq_false_2. rewrite (Hr p Hp Hid). done.
  - intros ->. split; intros p Hp Hid.
    + apply filteredView_only_elem in Hp as [Hp Hs].
      rewrite (Ha p Hp Hid) in Hs. done.
    + apply filteredView_only_elem in Hp as [Hp Hs].
      rewrite (Hr p Hp Hid) in Hs. done.
Qed.

Lemma moderated_post_leaves_pending_tab_witness :
  let st := setPosts [samplePost 1 pending; samplePost 2 pending]
              initialState in
  (1 ∉ processingIds st) ∧
  (∀ p, p ∈ filteredPosts
              (state_of (filteredPostsEffect
                           (state_of (handleApprove_click 1 st)))) →
        id p ≠ 1).
Proof.
  assert (Hfresh : 1 ∉ processingIds
            (setPosts [samplePost 1 pending; samplePost 2 pending] initialState))
    by apply not_elem_of_empty.
  split; [exact Hfresh|].
  exact (proj1 (proj2 (proj2 (moderated_post_leaves_pending_tab 1
    (setPosts [samplePost 1 pending; samplePost 2 pending] initialState)
    Hfresh)) eq_refl)).
Defined.

(** ** Whole runs of the moderation handlers *)

Lemma fetchPosts_settle_normal (now : Z) (rf : Response PostsPayload)
    (st : State) :
  result (fetchPosts_settle now rf st) = Normal () ∧
  processingIds (state_of (fetchPosts_settle now rf st)) = processingIds st ∧
  rejectNotes (state_of (fetchPosts_settle now rf st)) = rejectNotes st.
Proof.
  unfold fetchPosts_settle.
  destruct rf as [|[[data|]|]|code [b|]]; run; done.
Qed.

(** X4.  A whole run of a moderation handler on a post that is not
    being processed ends normally and leaves [processingIds] as it
    found it, whatever the answers to its own request and to the
    re-fetch are, and whether or not the re-fetch goes out; a run of
    Reject also leaves no text for the post in the notes buffer.  On a
    post that is being processed the whole run changes nothing and
    sends nothing. *)
Theorem moderation_releases_mark
    (a : option bool) (postId : Z) (r : Response unit) (now : Z)
    (rf : Response PostsPayload) (st : State) :
  (postId ∉ processingIds st →
   result (handleApprove a postId r now rf st) = Normal () ∧
   processingIds (state_of (handleApprove a postId r now rf st))
     = processingIds st ∧
   result (handleReject a postId r now rf st) = Normal () ∧
   processingIds (state_of (handleReject a postId r now rf st))
     = processingIds st ∧
   rejectNotes (state_of (handleReject a postId r now rf st)) !! postId
     = None) ∧
  (postId ∈ processingIds st →
   handleApprove a postId r now rf st = (Normal (), st, []) ∧
   handleReject a postId r now rf st = (Normal (), st, [])).
Proof.
  split.
  - intros Hfresh.
    assert (Hset : processingIds st ∖ {[postId]} = processingIds st)
      by (by apply difference_disjoint_L, disjoint_singleton_r).
    unfold handleApprove, handleReject, handleApprove_click,
      handleReject_click, moderation_settle, moderation_response,
      moderation_finally, fetchPosts_call, fetchPosts_settle.
    run. rewrite !bool_decide_eq_false_2 by done. cbn.
    destruct (truthy a), r as [|b|code b], rf as [|[[data|]|]|code' [b'|]];
      cbn; rewrite ?Hset, ?lookup_delete_eq; done.
  - intros Hin. unfold handleApprove, handleReject, handleApprove_click,
      handleReject_click.
    run. rewrite !bool_decide_eq_true_2 by done. done.
Qed.

Lemma moderation_releases_mark_witness :
  let st := setPosts [samplePost 1 pending] initialState in
  (1 ∉ processingIds st) ∧
  (processingIds (state_of (handleApprove (Some true) 1 FetchRejected 5
                              (HttpNotOk 500 None) st))
   = processingIds st).
Proof.
  assert (Hfresh : 1 ∉ processingIds (setPosts [samplePost 1 pending]
                                        initialState))
    by apply not_elem_of_empty.
  split; [exact Hfresh|].
  exact (proj1 (proj2 (proj1 (moderation_releases_mark (Some true) 1
    FetchRejected 5 (HttpNotOk 500 None)
    (setPosts [samplePost 1 pending] initialState)) Hfresh))).
Defined.

(** X6.  When the guard of [fetchPosts] does not let the re-fetch
    through, a whole run of a moderation handler sends the moderation
    request and nothing else, and the optimistic value stays in the
    collection: nothing reconciles it, whether the request succeeded
    or failed. *)
Theorem moderation_without_refetch
    (a : option bool) (postId : Z) (r : Response unit) (now : Z)
    (rf : Response PostsPayload) (st : State) :
  a ≠ Some true →
  postId ∉ processingIds st →
  requests (effects_of (handleApprove a postId r now rf st))
    = [PostApprove postId] ∧
  posts (state_of (handleApprove a postId r now rf st))
    = approveLocally postId (posts st) ∧
  requests (effects_of (handleReject a postId r now rf st))
    = [PostReject postId
         (or_default (rejectNotes st !! postId) defaultRejectNotes)] ∧
  posts (state_of (handleReject a postId r now rf st))
    = rejectLocally postId
        (or_default (rejectNotes st !! postId) defaultRejectNotes) (posts st).
Proof.
  intros Ha Hfresh.
  assert (Ht : truthy a = false).
  { destruct (truthy a) eqn:E; [|done]. apply truthy_true in E. done. }
  unfold handleApprove, handleReject, handleApprove_click,
    handleReject_click, moderation_settle, moderation_response,
    moderation_finally, fetchPosts_call.
  rewrite Ht. run. rewrite !bool_decide_eq_false_2 by done. cbn.
  destruct r as [|b|code b]; done.
Qed.

Lemma moderation_without_refetch_witness :
  let st := setPosts [samplePost 1 pending] initialState in
  ((None : option bool) ≠ Some true) ∧ (1 ∉ processingIds st) ∧
  (posts (state_of (handleApprove None 1 (HttpOk None) 5
                      (HttpOk (Some (PostsArray []))) st))
   = approveLocally 1 (posts st)).
Proof.
  assert (Ha : (None : option bool) ≠ Some true) by discriminate.
  assert (Hfresh : 1 ∉ processingIds (setPosts [samplePost 1 pending]
                                        initialState))
    by apply not_elem_of_empty.
  split; [exact Ha|]. split; [exact Hfresh|].
  exact (proj1 (proj2 (moderation_without_refetch None 1 (HttpOk None) 5
    (HttpOk (Some (PostsArray []))) (setPosts [samplePost 1 pending]
    initialState) Ha Hfresh))).
Defined.

(** ** The in-flight guard across the two handlers *)

Lemma handleReject_click_in_flight (postId : Z) (st : State) :
  postId ∈ processingIds st →
  handleReject_click postId st = (Normal None, st, []).
Proof.
  intros Hin. unfold handleReject_click. run.
  by rewrite bool_decide_eq_true_2.
Qed.

Lemma handleReject_click_marks (postId : Z) (st : State) :
  postId ∈ processingIds (state_of (handleReject_click postId st)).
Proof.
  unfold handleReject_click. run.
  case_bool_decide; cbn; set_solver.
Qed.

(** X7.  The two handlers share one in-flight set.  After a press on
    Approve, a press on Reject for the same post, made before anything
    has settled, is ignored: no request, no change, and the text typed
    in the notes box stays.  After a press on Reject, a press on
    Approve or a second press on Reject is ignored in the same way. *)
Theorem moderation_guard_shared (postId : Z) (st : State) :
  let approving := state_of (handleApprove_click postId st) in
  let rejecting := state_of (handleReject_click postId st) in
  handleReject_click postId approving = (Normal None, approving, []) ∧
  handleApprove_click postId rejecting = (Normal None, rejecting, []) ∧
  handleReject_click postId rejecting = (Normal None, rejecting, []).
Proof.
  cbn zeta. split; [|split].
  - apply handleReject_click_in_flight, handleApprove_click_marks.
  - apply handleApprove_click_in_flight, handleReject_click_marks.
  - apply handleReject_click_in_flight, handleReject_click_marks.
Qed.

(** X8.  The [finally] block writes back the set captured at the
    press, less the post of the handler.  So when the approvals of two
    different posts overlap, the first to settle drops the mark of the
    second, whose request is still out: a further press on the second
    post is let through and sends a second approval request for it. *)
Theorem overlapping_approvals_drop_mark (i j : Z) (st : State) :
  i ≠ j →
  i ∉ processingIds st →
  j ∉ processingIds st →
  let first := handleApprove_click i st in
  let second := handleApprove_click j (state_of first) in
  let settled := state_of (moderation_finally i (processingIds st)
                             (state_of second)) in
  result first = Normal (Some (processingIds st)) ∧
  requests (effects_of second) = [PostApprove j] ∧
  j ∈ processingIds (state_of second) ∧
  (j ∉ processingIds settled) ∧
  requests (effects_of (handleApprove_click j settled)) = [PostApprove j].
Proof.
  intros Hij Hi Hj. unfold handleApprove_click, moderation_finally. run.
  assert (H1 : j ∉ {[i]} ∪ processingIds st).
  { rewrite elem_of_union, elem_of_singleton. intros [?|?]; congruence. }
  assert (H2 : j ∉ processingIds st ∖ {[i]}).
  { rewrite elem_of_difference. intros [? _]. contradiction. }
  rewrite (bool_decide_eq_false_2 (i ∈ processingIds st)) by done. cbn.
  rewrite (bool_decide_eq_false_2 (j ∈ {[i]} ∪ processingIds st)) by done.
  cbn. rewrite (bool_decide_eq_false_2 (j ∈ processingIds st ∖ {[i]})) by done.
  cbn. repeat split; [|exact H2].
  apply elem_of_union_l, elem_of_singleton. reflexivity.
Qed.

Lemma overlapping_approvals_drop_mark_witness :
  let st := setPosts [samplePost 1 pending; samplePost 2 pending]
              initialState in
  let second := handleApprove_click 2 (state_of (handleApprove_click 1 st)) in
  let settled := state_of (moderation_finally 1 (processingIds st)
                             (state_of second)) in
  ((1 : Z) ≠ 2) ∧
  (requests (effects_of (handleApprove_click 2 settled)) = [PostApprove 2]).
Proof.
  assert (Hne : (1 : Z) ≠ 2) by discriminate.
  split; [exact Hne|].
  exact (proj2 (proj2 (proj2 (proj2 (overlapping_approvals_drop_mark 1 2
    (setPosts [samplePost 1 pending; samplePost 2 pending] initialState)
    Hne (not_elem_of_empty (C:=gset Z) 1) (not_elem_of_empty (C:=gset Z) 2)))))).
Defined.

(** ** The collection is never requested *)

Lemma requests_app (es1 es2 : list Effect) :
  requests (es1 ++ es2) = requests es1 ++ requests es2.
Proof.
  induction es1 as [|e es1 IH]; [reflexivity|].
  destruct e; cbn; by rewrite ?IH.
Qed.

Lemma postsFetches_app (es1 es2 : list Effect) :
  postsFetches (es1 ++ es2) = (postsFetches es1 + postsFetches es2)%nat.
Proof.
  unfold postsFetches. by rewrite requests_app, List.filter_app, length_app.
Qed.

Lemma approveLocally_ids (postId : Z) (ps : list Post) :
  map id (approveLocally postId ps) = map id ps.
Proof.
  unfold approveLocally. rewrite List.map_map. apply List.map_ext.
  intros p. by case_bool_decide.
Qed.

Lemma rejectLocally_ids (postId : Z) (n : string) (ps : list Post) :
  map id (rejectLocally postId n ps) = map id ps.
Proof.
  unfold rejectLocally. rewrite List.map_map. apply List.map_ext.
  intros p. by case_bool_decide.
Qed.

Lemma markManaged_ids (postId : Z) (ps : list Post) :
  map id (markManaged postId ps) = map id ps.
Proof.
  unfold markManaged. rewrite List.map_map. apply List.map_ext.
  intros p. by case_bool_decide.
Qed.

Lemma unloaded_trans (st1 st2 st3 : State) :
  unloaded st1 st2 → unloaded st2 st3 → unloaded st1 st3.
Proof. unfold unloaded. intros (?&?&?&?&?) (?&?&?&?&?). repeat split; congruence. Qed.

Lemma dashStep_unloaded (ev : DashEvent) (st : State) :
  result (dashStep capturedAuth ev st) = Normal () ∧
  postsFetches (effects_of (dashStep capturedAuth ev st)) = 0%nat ∧
  unloaded st (state_of (dashStep capturedAuth ev st)).
Proof.
  unfold unloaded.
  destruct ev as [h|visible now t rf|visible now h t rf| |t rf|f t rf
                  |postId text|postId r t rf|postId r t rf|post r t rf
                  |post r t rf]; cbn [dashStep].
  - unfold setupAutoRefresh. run. destruct (intervalRef st); done.
  - unfold intervalTick, fetchPosts_call, settleIf. run.
    destruct visible; [destruct (now - lastFetchRef st >? coolDown)|]; done.
  - unfold handleVisibilityChange, setupAutoRefresh, fetchPosts_call, settleIf.
    run.
    destruct visible; [destruct (now - lastFetchRef st >? coolDown)|];
      cbn; destruct (intervalRef st); done.
  - unfold autoRefreshCleanup. run. destruct (intervalRef st); done.
  - done.
  - unfold changeFilter, filteredPostsEffect, filterChangeEffect_commit,
      filterChangeEffect, filterChangeDeps, fetchPosts_call, settleIf.
    run. case_bool_decide; [done|]. cbn.
    destruct (negb (isInitialMount st)
              && bool_decide (0 < length (posts st))%nat); done.
  - done.
  - unfold handleApprove, handleApprove_click, moderation_settle,
      moderation_response, moderation_finally, fetchPosts_call.
    run. case_bool_decide; [done|]. cbn.
    destruct r as [|b|code b]; cbn;
      repeat split; try done; apply approveLocally_ids.
  - unfold handleReject, handleReject_click, moderation_settle,
      moderation_response, moderation_finally, fetchPosts_call.
    run. case_bool_decide; [done|]. cbn.
    destruct r as [|b|code b]; cbn;
      repeat split; try done; apply rejectLocally_ids.
  - unfold attachPartyList, attachPartyList_click, attachPartyList_response,
      attachPartyList_finally, fetchPosts_call.
    run. destruct (selectedPartyListId st !! id post) as [[n|]|]; [|done..].
    case_bool_decide; [done|]. cbn.
    destruct r as [|b|code [[|m]|]]; cbn;
      repeat split; try done; apply markManaged_ids.
  - unfold createPartyList, createPartyList_click, createPartyList_response,
      createPartyList_finally, fetchPosts_call.
    run. destruct r as [|b|code [[|m]|]]; cbn;
      repeat split; try done; apply markManaged_ids.
Qed.

Lemma dashRun_cons (a : option bool) (ev : DashEvent) (rest : list DashEvent)
    (st : State) :
  result (dashStep a ev st) = Normal () →
  dashRun a (ev :: rest) st
  = (result (dashRun a rest (state_of (dashStep a ev st))),
     state_of (dashRun a rest (state_of (dashStep a ev st))),
     effects_of (dashStep a ev st)
       ++ effects_of (dashRun a rest (state_of (dashStep a ev st)))).
Proof.
  cbn [dashRun]. unfold mbind, Act_bind, result, state_of, effects_of.
  destruct (dashStep a ev st) as [[c st1] e1]. cbn. intros ->.
  destruct (dashRun a rest st1) as [[c2 st2] e2]. reflexivity.
Qed.

Lemma dashRun_unloaded (evs : list DashEvent) (st : State) :
  result (dashRun capturedAuth evs st) = Normal () ∧
  postsFetches (effects_of (dashRun capturedAuth evs st)) = 0%nat ∧
  unloaded st (state_of (dashRun capturedAuth evs st)).
Proof.
  revert st. induction evs as [|ev rest IH]; intros st.
  - repeat split.
  - destruct (dashStep_unloaded ev st) as (Hres & Hreq & Hst).
    rewrite (dashRun_cons capturedAuth ev rest st Hres).
    destruct (IH (state_of (dashStep capturedAuth ev st))) as (Hres' & Hreq' & Hst').
    unfold result, state_of, effects_of in *. cbn [fst snd].
    split; [exact Hres'|]. split.
    + rewrite postsFetches_app, Hreq, Hreq'. reflexivity.
    + eapply unloaded_trans; eassumption.
Qed.

(** X9.  In the component no handler ever requests the collection.
    Take any sequence of whole runs of the handlers that call
    [fetchPosts] or write the collection: the timer set-up and
    clean-up, interval ticks, visibility changes, the Refresh button,
    tab clicks, typing notes, Approve, Reject, and the two party-list
    actions, with any answers.  From any state the sequence ends
    normally, sends no request for the collection, and leaves the
    session, both indicators, the timestamp and the identifiers of the
    collection as they were.  So for a browser with a stored session
    the collection stays empty and the component keeps returning the
    spinner after any such sequence. *)
Theorem dashboard_never_loads (evs : list DashEvent) (st : State) :
  let out := dashRun capturedAuth evs st in
  let mounted := dashRun capturedAuth evs mountedDashboard in
  result out = Normal () ∧
  postsFetches (effects_of out) = 0%nat ∧
  unloaded st (state_of out) ∧
  isAuthenticated mountedDashboard = Some true ∧
  posts (state_of mounted) = [] ∧
  render (state_of mounted) = LoadingSpinner.
Proof.
  cbn zeta. destruct (dashRun_unloaded evs st) as (Hres & Hreq & Hst).
  split; [exact Hres|]. split; [exact Hreq|]. split; [exact Hst|].
  split; [reflexivity|].
  destruct (dashRun_unloaded evs mountedDashboard) as (_ & _ & Hm).
  destruct Hm as (Ha & Hl & _ & _ & Hp).
  split.
  - change (posts mountedDashboard) with (@nil Post) in Hp.
    by apply map_eq_nil in Hp.
  - unfold render. rewrite Ha, Hl. reflexivity.
Qed.

(** ** Timers of the poller *)

Lemma liveTimers_app (live : gset TimerId) (es1 es2 : list Effect) :
  liveTimers live (es1 ++ es2) = liveTimers (liveTimers live es1) es2.
Proof.
  revert live. induction es1 as [|e es1 IH]; intros live; [reflexivity|].
  destruct e; cbn; apply IH.
Qed.

Lemma pollStep_tracked (a : option bool) (ev : PollEvent) (st : State)
    (live : gset TimerId) :
  live ⊆ trackedTimers st →
  result (pollStep a ev st) = Normal () ∧
  liveTimers live (effects_of (pollStep a ev st))
    ⊆ trackedTimers (state_of (pollStep a ev st)).
Proof.
  unfold trackedTimers. intros Hlive.
  destruct ev as [h|visible now|visible now h|]; cbn [pollStep].
  - unfold setupAutoRefresh. run.
    destruct (intervalRef st); cbn; split; try reflexivity; set_solver.
  - unfold intervalTick, fetchPosts_call. run.
    destruct visible; [|done].
    destruct (now - lastFetchRef st >? coolDown); [|done].
    destruct (truthy a); done.
  - unfold handleVisibilityChange, setupAutoRefresh, fetchPosts_call. run.
    destruct visible.
    + destruct (now - lastFetchRef st >? coolDown), (truthy a); cbn;
        destruct (intervalRef st); cbn; split; try reflexivity; set_solver.
    + destruct (intervalRef st); cbn; split; try reflexivity; set_solver.
  - unfold autoRefreshCleanup. run.
    destruct (intervalRef st); cbn; split; try reflexivity; set_solver.
Qed.

Lemma pollRun_cons (a : option bool) (ev : PollEvent) (rest : list PollEvent)
    (st : State) :
  result (pollStep a ev st) = Normal () →
  pollRun a (ev :: rest) st
  = (result (pollRun a rest (state_of (pollStep a ev st))),
     state_of (pollRun a rest (state_of (pollStep a ev st))),
     effects_of (pollStep a ev st)
       ++ effects_of (pollRun a rest (state_of (pollStep a ev st)))).
Proof.
  cbn [pollRun]. unfold mbind, Act_bind, result, state_of, effects_of.
  destruct (pollStep a ev st) as [[c st1] e1]. cbn. intros ->.
  destruct (pollRun a rest st1) as [[c2 st2] e2]. reflexivity.
Qed.

(** X11.  Start from a state whose running timers are all accounted
    for by [intervalRef] (as on mount, where there is none).  After any
    sequence of set-ups, ticks, visibility changes and clean-ups, the
    sequence has ended normally, the running timers are still
    accounted for by [intervalRef], so at most one timer runs, and a
    clean-up at that point leaves no timer running. *)
Theorem poller_timers_tracked
    (a : option bool) (evs : list PollEvent) (st : State)
    (live : gset TimerId) :
  live ⊆ trackedTimers st →
  let out := pollRun a evs st in
  let running := liveTimers live (effects_of out) in
  result out = Normal () ∧
  running ⊆ trackedTimers (state_of out) ∧
  (size running ≤ 1)%nat ∧
  liveTimers running (effects_of (autoRefreshCleanup (state_of out))) = ∅.
Proof.
  intros Hlive. cbn zeta.
  assert (Hmain : result (pollRun a evs st) = Normal () ∧
                  liveTimers live (effects_of (pollRun a evs st))
                    ⊆ trackedTimers (state_of (pollRun a evs st))).
  { revert st live Hlive. induction evs as [|ev rest IH]; intros st live Hlive.
    - split; [reflexivity|exact Hlive].
    - destruct (pollStep_tracked a ev st live Hlive) as [Hres Hstep].
      rewrite (pollRun_cons a ev rest st Hres).
      unfold result, state_of, effects_of in *. cbn [fst snd].
      rewrite liveTimers_app. apply IH. exact Hstep. }
  destruct Hmain as [Hres Hsub]. split; [exact Hres|]. split; [exact Hsub|].
  revert Hsub. generalize (liveTimers live (effects_of (pollRun a evs st))).
  generalize (state_of (pollRun a evs st)). clear. intros st running Hsub.
  unfold trackedTimers, autoRefreshCleanup in *. run.
  destruct (intervalRef st) as [h|]; cbn; split.
  - etrans; [apply (subseteq_size _ _ Hsub)|]. rewrite size_singleton. lia.
  - set_solver.
  - etrans; [apply (subseteq_size _ _ Hsub)|]. rewrite size_empty. lia.
  - set_solver.
Qed.

Lemma poller_timers_tracked_witness :
  let evs := [EvSetup 1%nat; EvVisibility false 5 2%nat;
              EvVisibility true 20000 3%nat; EvTick true 90000] in
  ((∅ : gset TimerId) ⊆ trackedTimers initialState) ∧
  (size (liveTimers ∅ (effects_of (pollRun (Some true) evs initialState)))
   ≤ 1)%nat.
Proof.
  assert (H0 : (∅ : gset TimerId) ⊆ trackedTimers initialState)
    by apply empty_subseteq.
  split; [exact H0|].
  exact (proj1 (proj2 (proj2 (poller_timers_tracked (Some true)
    [EvSetup 1%nat; EvVisibility false 5 2%nat;
     EvVisibility true 20000 3%nat; EvTick true 90000] initialState ∅ H0)))).
Defined.

(** X12.  A change to hidden stops the timer [intervalRef] holds and
    does nothing else: no request, no new timer, the state as it was.
    A change to visible always ends with a fresh timer of the poll
    period recorded in [intervalRef], after the previous one has been
    stopped, whether or not the cool-down let a fetch through. *)
Theorem visibility_change_timers
    (a : option bool) (now : Z) (h : TimerId) (st : State) :
  let hidden := handleVisibilityChange a false now h st in
  let shown := handleVisibilityChange a true now h st in
  state_of hidden = st ∧
  requests (effects_of hidden) = [] ∧
  List.filter is_timer (effects_of hidden) = [] ∧
  liveTimers (trackedTimers st) (effects_of hidden) = ∅ ∧
  intervalRef (state_of shown) = Some h ∧
  List.filter is_timer (effects_of shown) = [SetInterval h pollPeriod] ∧
  liveTimers (trackedTimers st) (effects_of shown) = {[h]}.
Proof.
  unfold handleVisibilityChange, setupAutoRefresh, fetchPosts_call,
    trackedTimers.
  run.
  destruct (now - lastFetchRef st >? coolDown), (truthy a); cbn;
    destruct (intervalRef st); cbn; repeat split; set_solver.
Qed.

(** ** Party-list modal *)



(** ** Party-list search: selection and the searching flag *)

(** X14.  Every change of the search box of a post stores the query
    and cancels the selection made for that post, so the button that
    attaches is disabled, and a press on it alerts and sends nothing
    until a result is selected again.  The collection and what is kept
    for the other posts are not changed. *)
Theorem partyListSearch_cancels_selection
    (p : Post) (query : string) (st : State) :
  let typed := state_of (partyListSearch_change (id p) query st) in
  searchPartyList typed !! id p = Some query ∧
  selectedPartyListId typed !! id p = Some None ∧
  attachDisabled typed p = true ∧
  attachPartyList_click p typed = (Normal None, typed, [Alert]) ∧
  posts typed = posts st ∧
  (∀ other, other ≠ id p →
     searchPartyList typed !! other = searchPartyList st !! other ∧
     selectedPartyListId typed !! other = selectedPartyListId st !! other ∧
     existingPartyLists typed !! other = existingPartyLists st !! other ∧
     isSearchingPartyList typed !! other = isSearchingPartyList st !! other).
Proof.
  unfold partyListSearch_change, attachPartyList_click, attachDisabled. run.
  case_bool_decide; cbn; rewrite !lookup_insert_eq; cbn;
    repeat split; try done;
    by rewrite ?lookup_insert_ne by done.
Qed.

Lemma partyListSearch_cancels_selection_witness :
  let st := state_of (selectPartyList 2 9 initialState) in
  ((2 : Z) ≠ id (samplePost 1 pending)) ∧
  (selectedPartyListId
     (state_of (partyListSearch_change (id (samplePost 1 pending)) "ba" st))
     !! 2
   = selectedPartyListId st !! 2).
Proof.
  assert (Hne : (2 : Z) ≠ id (samplePost 1 pending)) by discriminate.
  split; [exact Hne|].
  pose proof (partyListSearch_cancels_selection (samplePost 1 pending) "ba"
                (state_of (selectPartyList 2 9 initialState))) as H.
  cbn zeta in H. destruct H as (_ & _ & _ & _ & _ & H).
  exact (proj1 (proj2 (H 2 Hne))).
Defined.

(** X15.  The searching flag of a post goes up with a query of two
    characters or more and is left alone by a shorter one.  Every
    answer lowers it and ends the handler normally without a further
    request.  A transport failure or an unreadable body writes a
    diagnostic; an HTTP failure writes nothing at all. *)
Theorem partyListSearch_flag
    (postId : Z) (query : string) (r : Response (list PartyList))
    (st : State) :
  let typed := state_of (partyListSearch_change postId query st) in
  let landed := partyListSearch_settle postId r st in
  flag_at (isSearchingPartyList typed) postId
    = (if bool_decide (2 ≤ String.length query)%nat then true
       else flag_at (isSearchingPartyList st) postId) ∧
  result landed = Normal () ∧
  requests (effects_of landed) = [] ∧
  flag_at (isSearchingPartyList (state_of landed)) postId = false ∧
  effects_of landed
    = match r with
      | FetchRejected | HttpOk None => [ConsoleError]
      | _ => []
      end.
Proof.
  unfold partyListSearch_change, partyListSearch_settle, flag_at. run.
  split.
  - case_bool_decide; cbn; [by rewrite lookup_insert_eq|done].
  - destruct r as [|[data|]|code b]; cbn; by rewrite lookup_insert_eq.
Qed.

(** ** Attaching to a selected party list *)

(** X16.  Selecting a search result and pressing the attach button
    sends one request that names the selected party list and the post,
    and raises the busy flag of the post, which disables both buttons
    of the modal.  A result whose identifier is 0 counts as no
    selection: the press alerts, sends nothing and raises no flag. *)
Theorem attach_after_select (p : Post) (partyListId : Z) (st : State) :
  let selected := state_of (selectPartyList (id p) partyListId st) in
  let pressed := attachPartyList_click p selected in
  (partyListId ≠ 0 →
     result pressed = Normal (Some partyListId) ∧
     effects_of pressed = [Fetch (PostPartyListMember partyListId (id p))] ∧
     attachDisabled (state_of pressed) p = true ∧
     createDisabled (state_of pressed) p = true ∧
     posts (state_of pressed) = posts st) ∧
  (partyListId = 0 →
     attachDisabled selected p = true ∧
     pressed = (Normal None, selected, [Alert])).
Proof.
  unfold selectPartyList, attachPartyList_click, attachDisabled,
    createDisabled, flag_at.
  run. rewrite !lookup_insert_eq. split.
  - intros Hn. rewrite bool_decide_eq_false_2 by done. cbn.
    rewrite !lookup_insert_eq. repeat split. apply orb_true_r.
  - intros ->. done.
Qed.

Lemma attach_after_select_witness :
  (effects_of (attachPartyList_click (samplePost 1 pending)
                 (state_of (selectPartyList 1 7 initialState)))
   = [Fetch (PostPartyListMember 7 1)]) ∧
  (attachPartyList_click (samplePost 1 pending)
     (state_of (selectPartyList 1 0 initialState))
   = (Normal None, state_of (selectPartyList 1 0 initialState), [Alert])).
Proof.
  split.
  - refine (proj1 (proj2 (proj1 (attach_after_select (samplePost 1 pending) 7
                                   initialState) _))).
    discriminate.
  - exact (proj2 (proj2 (attach_after_select (samplePost 1 pending) 0
                           initialState) eq_refl)).
Defined.

(** ** Answers to the two party-list actions *)

Lemma markManaged_pointwise (postId : Z) (ps : list Post) :
  Forall2 (managed_as postId) ps (markManaged postId ps).
Proof.
  induction ps as [|p ps IH]; cbn; constructor; [|exact IH].
  unfold managed_as. case_bool_decide; cbn; naive_solver.
Qed.

Lemma markManaged_notice (postId : Z) (ps : list Post) (p' : Post) :
  p' ∈ markManaged postId ps → id p' = postId →
  showsPartyListNotice p' = false.
Proof.
  intros Hin Hid. apply list_elem_of_In, in_map_iff in Hin as (p & <- & _).
  revert Hid. case_bool_decide; cbn; [|intros; contradiction].
  intros _. unfold showsPartyListNotice. cbn. apply andb_false_r.
Qed.

(** X17.  A successful answer to either party-list action closes the
    modal of the post, empties its search box, marks every post with
    the identifier as managed (status and notes kept, other posts
    untouched), so the party-list notice is no longer shown for it, and
    calls for a non-silent fetch.  Attaching also cancels the
    selection; creating leaves the selection as it was. *)
Theorem partyList_action_success
    (a : option bool) (post : Post) (body : option ErrorBody) (st : State) :
  let attached := attachPartyList_response a post (HttpOk body) st in
  let created := createPartyList_response a post (HttpOk body) st in
  result attached = Normal (truthy a) ∧
  result created = Normal (truthy a) ∧
  state_of attached
    = setSelectedPartyListId (<[id post := None]> (selectedPartyListId st))
        (state_of created) ∧
  selectedPartyListId (state_of created) = selectedPartyListId st ∧
  showsPartyListModal (state_of created) post = false ∧
  searchPartyList (state_of created) !! id post = Some ""%string ∧
  Forall2 (managed_as (id post)) (posts st) (posts (state_of created)) ∧
  (∀ p, p ∈ posts (state_of created) → id p = id post →
        showsPartyListNotice p = false) ∧
  requests (effects_of created) = (if truthy a then [GetPosts] else []) ∧
  isLoading (state_of created) = (if truthy a then true else isLoading st).
Proof.
  unfold attachPartyList_response, createPartyList_response, fetchPosts_call,
    showsPartyListModal, flag_at.
  run. destruct (truthy a); cbn; rewrite ?lookup_insert_eq;
    repeat split; try done; try (by rewrite andb_false_r);
    try apply markManaged_pointwise; apply markManaged_notice.
Qed.

Lemma partyList_action_success_witness :
  let post := Build_Post 1 "u1" "Juan" "national" "senator" "" PlatformNull
                None None None None (Some "Bayan"%string) None pending None
                (Build_UserRef "u1" "Juan" "juan@example.org")
                "2024-01-01" "2024-01-01" in
  let st := setPosts [post] initialState in
  showsPartyListNotice post = true ∧
  (∀ p, p ∈ posts (state_of (createPartyList_response (Some true) post
                              (HttpOk None) st)) →
        id p = id post → showsPartyListNotice p = false).
Proof.
  split; [reflexivity|].
  pose proof (partyList_action_success (Some true)
       (Build_Post 1 "u1" "Juan" "national" "senator" "" PlatformNull
          None None None None (Some "Bayan"%string) None pending None
          (Build_UserRef "u1" "Juan" "juan@example.org")
          "2024-01-01" "2024-01-01") None
       (setPosts [Build_Post 1 "u1" "Juan" "national" "senator" ""
                    PlatformNull None None None None (Some "Bayan"%string)
                    None pending None
                    (Build_UserRef "u1" "Juan" "juan@example.org")
                    "2024-01-01" "2024-01-01"] initialState)) as H.
  cbn zeta in H. destruct H as (_ & _ & _ & _ & _ & _ & _ & H & _).
  exact H.
Defined.

(** X18.  An answer to either party-list action that is not a success
    alerts the administrator and changes nothing: the modal, the
    search, the selection and the collection stay, and no fetch is
    called for.  An HTTP failure whose body can be read and is not
    [null] only alerts; a transport failure, an HTTP failure whose
    body cannot be read, and an HTTP failure whose body is [null]
    (reading its message throws) also write a diagnostic first. *)
Theorem partyList_action_failure
    (a : option bool) (post : Post) (r : Response ErrorBody) (st : State) :
  (∀ body, r ≠ HttpOk body) →
  let expected :=
    match r with
    | HttpNotOk _ (Some (ErrorValue _)) => [Alert]
    | _ => [ConsoleError; Alert]
    end in
  attachPartyList_response a post r st = (Normal false, st, expected) ∧
  createPartyList_response a post r st = (Normal false, st, expected).
Proof.
  intros Hr. unfold attachPartyList_response, createPartyList_response.
  destruct r as [|body|code [[|m]|]]; run; try done. by destruct (Hr body).
Qed.

Lemma partyList_action_failure_witness :
  createPartyList_response capturedAuth (samplePost 1 pending)
    (HttpNotOk 422 (Some ErrorNull)) initialState
  = (Normal false, initialState, [ConsoleError; Alert]).
Proof.
  refine (proj2 (partyList_action_failure capturedAuth (samplePost 1 pending)
                   (HttpNotOk 422 (Some ErrorNull)) initialState _)).
  intros body. discriminate.
Defined.

(** X19.  The busy flag of a post is up from the press on "Create New
    Party List" on, which disables both buttons of the modal, and a
    whole run of either party-list action ends normally with the flag
    down, whatever the answers to its request and to the fetch that
    follows a success. *)
Theorem partyList_busy_flag
    (a : option bool) (post : Post) (r : Response ErrorBody) (now : Z)
    (rf : Response PostsPayload) (st : State) :
  let pressed := state_of (createPartyList_click post st) in
  createDisabled pressed post = true ∧
  attachDisabled pressed post = true ∧
  result (createPartyList a post r now rf st) = Normal () ∧
  createDisabled (state_of (createPartyList a post r now rf st)) post = false ∧
  (∀ n, n ≠ 0 → selectedPartyListId st !! id post = Some (Some n) →
     result (attachPartyList a post r now rf st) = Normal () ∧
     createDisabled (state_of (attachPartyList a post r now rf st)) post
       = false).
Proof.
  unfold createPartyList, attachPartyList, createPartyList_click,
    attachPartyList_click, createPartyList_response, attachPartyList_response,
    createPartyList_finally, attachPartyList_finally, fetchPosts_call,
    fetchPosts_settle, createDisabled, attachDisabled, flag_at.
  run. rewrite lookup_insert_eq.
  split; [reflexivity|]. split; [apply orb_true_r|].
  split; [|split].
  - destruct (truthy a), r as [|b|code [[|m]|]], rf as [|[[data|]|]|code' [b'|]];
      reflexivity.
  - destruct (truthy a), r as [|b|code [[|m]|]], rf as [|[[data|]|]|code' [b'|]];
      cbn; by rewrite lookup_insert_eq.
  - intros n Hn ->. rewrite bool_decide_eq_false_2 by done. cbn.
    destruct (truthy a), r as [|b|code [[|m]|]], rf as [|[[data|]|]|code' [b'|]];
      cbn; by rewrite lookup_insert_eq.
Qed.

Lemma partyList_busy_flag_witness :
  let st := state_of (selectPartyList 1 7 initialState) in
  createDisabled
    (state_of (attachPartyList (Some true) (samplePost 1 pending)
                 (HttpOk None) 5 (HttpOk (Some (PostsArray []))) st))
    (samplePost 1 pending)
  = false.
Proof.
  refine (proj2 (proj2 (proj2 (proj2 (proj2
    (partyList_busy_flag (Some true) (samplePost 1 pending) (HttpOk None) 5
       (HttpOk (Some (PostsArray [])))
       (state_of (selectPartyList 1 7 initialState)))))) 7 _ _)).
  - discriminate.
  - reflexivity.
Defined.

(** ** What the mounted component shows *)

(** X20.  Without a stored session the mount check takes the loading
    indicator down, the component returns the redirect to the login
    page, and the initial-fetch effect sends nothing.  With a stored
    session and the loading indicator up (as it is on mount) the
    component returns the spinner; if the guard of [fetchPosts] lets
    the first request through, the dashboard is returned once that
    request has settled, whatever the answer; if the guard does not,
    nothing is sent, the mount flag is cleared all the same, and the
    spinner stays. *)
Theorem mount_views
    (a : option bool) (now : Z) (r : Response PostsPayload) (st : State) :
  let denied := state_of (authCheckEffect false st) in
  let allowed := state_of (authCheckEffect true st) in
  let started := initialFetchEffect a allowed in
  render denied = RedirectToLogin ∧
  initialFetchEffect a denied = (Normal false, denied, []) ∧
  (isLoading st = true →
     render allowed = LoadingSpinner ∧
     isInitialMount (state_of started) = false ∧
     (a = Some true →
        requests (effects_of started) = [GetPosts] ∧
        render (state_of started) = LoadingSpinner ∧
        render (state_of (fetchPosts_settle now r (state_of started)))
          = DashboardPage) ∧
     (a ≠ Some true →
        effects_of started = [] ∧
        render (state_of started) = LoadingSpinner)).
Proof.
  unfold authCheckEffect, initialFetchEffect, fetchPosts_call,
    fetchPosts_settle, render.
  run. split; [reflexivity|]. split; [reflexivity|].
  intros Hl. rewrite Hl. cbn. split; [reflexivity|].
  split; [destruct (truthy a); reflexivity|]. split.
  - intros ->. cbn. repeat split.
    destruct r as [|[[data|]|]|code [b|]]; reflexivity.
  - intros Ha. destruct (truthy a) eqn:E.
    + apply truthy_true in E. contradiction.
    + cbn. rewrite Hl. done.
Qed.

Lemma mount_views_witness :
  (isLoading initialState = true) ∧
  (render (state_of (initialFetchEffect None
                       (state_of (authCheckEffect true initialState))))
   = LoadingSpinner) ∧
  (render (state_of (fetchPosts_settle 5 (HttpOk (Some (PostsArray [])))
             (state_of (initialFetchEffect (Some true)
                          (state_of (authCheckEffect true initialState))))))
   = DashboardPage).
Proof.
  split; [reflexivity|]. split.
  - refine (proj2 (proj2 (proj2 (proj2 (proj2 (proj2
      (mount_views None 5 FetchRejected initialState)) eq_refl))) _)).
    discriminate.
  - exact (proj2 (proj2 (proj1 (proj2 (proj2 (proj2 (proj2
      (mount_views (Some true) 5 (HttpOk (Some (PostsArray []))) initialState))
      eq_refl))) eq_refl))).
Defined.

(** ** Long texts *)

Lemma string_length_append (s1 s2 : string) :
  String.length (String.append s1 s2)
  = (String.length s1 + String.length s2)%nat.
Proof.
  induction s1 as [|c s1 IH]; [reflexivity|].
  change (S (String.length (String.append s1 s2))
          = S (String.length s1 + String.length s2)).
  by f_equal.
Qed.

Lemma length_substring (n : nat) (s : string) :
  (n ≤ String.length s)%nat → String.length (String.substring 0 n s) = n.
Proof.
  revert s. induction n as [|n IH]; intros s Hn.
  - destruct s; reflexivity.
  - destruct s as [|c s]; cbn in *; [lia|]. rewrite IH; [reflexivity|lia].
Qed.

Lemma substring_prefix (n : nat) (s : string) :
  ∃ rest, s = String.append (String.substring 0 n s) rest.
Proof.
  revert s. induction n as [|n IH]; intros s.
  - exists s. destruct s; reflexivity.
  - destruct s as [|c s]; [by exists ""%string|].
    destruct (IH s) as [rest Hrest]. exists rest.
    change (String c s
            = String c (String.append (String.substring 0 n s) rest)).
    by f_equal.
Qed.

(** X21.  A text no longer than the limit is displayed whole and gets
    no Show More button.  A longer text gets the button and, while its
    section is collapsed, is displayed as its first [limit] characters
    followed by three dots, [limit + 3] characters in all.  Pressing
    the button flips the section: after one press the whole text is
    displayed, after a second press the short form again; the sections
    with other keys are not affected. *)
Theorem displayText_toggle
    (limit : nat) (text : string) (key : string) (st : State) :
  let shown st' := displayText limit text (flag_at (expandedSections st') key) in
  let once := state_of (toggleSection key st) in
  let twice := state_of (toggleSection key once) in
  ((String.length text ≤ limit)%nat →
     shouldTruncate limit text = false ∧ shown st = text) ∧
  ((limit < String.length text)%nat →
     shouldTruncate limit text = true ∧
     String.length (displayText limit text false) = (limit + 3)%nat ∧
     (∃ rest, text = String.append (String.substring 0 limit text) rest ∧
              displayText limit text false
              = String.append (String.substring 0 limit text) "...") ∧
     displayText limit text true = text ∧
     (flag_at (expandedSections st) key = false → shown once = text)) ∧
  flag_at (expandedSections once) key
    = negb (flag_at (expandedSections st) key) ∧
  shown twice = shown st ∧
  (∀ other, other ≠ key →
     expandedSections twice !! other = expandedSections st !! other).
Proof.
  unfold toggleSection, displayText, shouldTruncate, flag_at. run.
  rewrite !lookup_insert_eq, negb_involutive.
  split; [|split; [|split; [|split]]].
  - intros Hlen. rewrite bool_decide_eq_false_2 by lia. done.
  - intros Hlen. rewrite bool_decide_eq_true_2 by lia. cbn.
    split; [reflexivity|]. split.
    { rewrite string_length_append, length_substring by lia. reflexivity. }
    split.
    { destruct (substring_prefix limit text) as [rest Hrest]. by exists rest. }
    split; [reflexivity|]. by intros ->.
  - reflexivity.
  - reflexivity.
  - intros other Hother. by rewrite !lookup_insert_ne.
Qed.

Lemma displayText_toggle_witness :
  (String.length (displayText 5 "Mabuhay ang bayan" false) = 8)%nat ∧
  displayText 5 "Bayan" false = "Bayan"%string.
Proof.
  split.
  - refine (proj1 (proj2 (proj1 (proj2
      (displayText_toggle 5 "Mabuhay ang bayan" "bio-1" initialState)) _))).
    cbn. lia.
  - refine (proj2 (proj1
      (displayText_toggle 5 "Bayan" "bio-1" initialState) _)).
    cbn. lia.
Defined.

(** ** Changing the tab *)

(** X22.  A click on a tab makes it the current filter and brings the
    filtered view in line with it, without touching the collection,
    the loading indicator or the timestamp.  A click on the tab that
    is already selected sends nothing.  A click on another tab sends
    one silent request for the collection when the mount flag is down,
    the collection is not empty and the guard of [fetchPosts] lets it
    through, and nothing otherwise; the time since the last fetch
    plays no part. *)
Theorem changeFilter_view (a : option bool) (f : FilterValue) (st : State) :
  let out := changeFilter a f st in
  filter (state_of out) = f ∧
  filteredPosts (state_of out) = filteredView f (posts st) ∧
  posts (state_of out) = posts st ∧
  isLoading (state_of out) = isLoading st ∧
  lastFetchRef (state_of out) = lastFetchRef st ∧
  effects_of out
    = (if bool_decide (f ≠ filter st) && negb (isInitialMount st)
          && bool_decide (0 < length (posts st))%nat && truthy a
       then [Fetch GetPosts] else []).
Proof.
  unfold changeFilter, filteredPostsEffect, filterChangeEffect_commit,
    filterChangeEffect, filterChangeDeps, fetchPosts_call.
  run. destruct (decide (f = filter st)) as [Heq|Hne].
  - rewrite bool_decide_eq_true_2 by congruence.
    rewrite (bool_decide_eq_false_2 (f ≠ filter st)) by (intros H; by apply H).
    done.
  - rewrite bool_decide_eq_false_2 by congruence.
    rewrite (bool_decide_eq_true_2 (f ≠ filter st)) by done. cbn.
    destruct (isInitialMount st); cbn; [done|].
    case_bool_decide; cbn; [|done].
    destruct (truthy a); done.
Qed.

(** * Properties of the login page *)

Ltac login_run :=
  unfold Login.handleLogin, Login.handleLogin_submit, Login.handleLogin_settle,
    Login.submitDisabled, Login.gets, Login.modify, Login.emit, Login.throw,
    Login.try_catch, Login.try_finally, mbind, mret, Login.Act_bind,
    Login.Act_ret, Login.result, Login.state_of, Login.effects_of in *;
  cbn in *.

(** X23.  A submission raises the busy flag, which disables the Sign
    In button, clears the error text and sends one login request that
    carries the e-mail and the password as they were last typed.  When
    the request has settled, whatever the answer, the handler has ended
    normally, the busy flag is down, and the e-mail and the password
    are still in their boxes. *)
Theorem login_submission
    (e pw : string) (r : Response Login.LoginData) (pg : Login.Page) :
  let typed := Login.setPassword pw (Login.setEmail e pg) in
  let sent := Login.handleLogin_submit typed in
  let settled := Login.handleLogin_settle r (Login.state_of sent) in
  Login.effects_of sent = [Login.PostLogin e pw] ∧
  Login.submitDisabled (Login.state_of sent) = true ∧
  Login.error (Login.state_of sent) = ""%string ∧
  Login.localStorage (Login.state_of sent) = Login.localStorage pg ∧
  Login.result settled = Normal () ∧
  Login.submitDisabled (Login.state_of settled) = false ∧
  Login.email (Login.state_of settled) = e ∧
  Login.password (Login.state_of settled) = pw.
Proof.
  login_run. repeat split;
    destruct r as [|[[|m [u|]]|]|code [[|m u]|]]; reflexivity.
Qed.

(** X24.  What an answer to the login request does, case by case.  A
    success whose body names the user stores the session flag and the
    user identifier, navigates to the dashboard and shows no error.  An
    HTTP failure whose body can be read and is not [null] shows the
    message of the body, or "Login failed" when it has none or an
    empty one, and writes no diagnostic.  A transport failure, a body
    that cannot be read (even on a success status) and an HTTP failure
    whose body is [null] show "Failed to connect to server" and write
    a diagnostic.  In all these failures nothing is stored and there
    is no navigation.  A success whose body is [null] or names no user
    shows "Failed to connect to server" and does not navigate, yet the
    session flag has already been stored. *)
Theorem login_answers (r : Response Login.LoginData) (pg : Login.Page) :
  let out := Login.handleLogin r pg in
  let storage := Login.localStorage (Login.state_of out) in
  let sent := Login.PostLogin (Login.email pg) (Login.password pg) in
  match r with
  | HttpOk (Some (Login.DataValue _ (Some uid))) =>
      storage = <["admin_user_id"%string := uid]>
                  (<["admin_authenticated"%string := "true"%string]>
                     (Login.localStorage pg)) ∧
      Login.effects_of out = [sent; Login.Navigate "/"] ∧
      Login.error (Login.state_of out) = ""%string
  | HttpOk (Some _) =>
      storage = <["admin_authenticated"%string := "true"%string]>
                  (Login.localStorage pg) ∧
      Login.effects_of out = [sent; Login.ConsoleError] ∧
      Login.error (Login.state_of out) = "Failed to connect to server"%string
  | HttpNotOk _ (Some (Login.DataValue message _)) =>
      storage = Login.localStorage pg ∧
      Login.effects_of out = [sent] ∧
      Login.error (Login.state_of out) = or_default message "Login failed"
  | HttpOk None | HttpNotOk _ _ | FetchRejected =>
      storage = Login.localStorage pg ∧
      Login.effects_of out = [sent; Login.ConsoleError] ∧
      Login.error (Login.state_of out) = "Failed to connect to server"%string
  end.
Proof.
  login_run. destruct r as [|[[|m [u|]]|]|code [[|m u]|]]; cbn; done.
Qed.

(** X25.  The login page and the dashboard meet in [localStorage].
    After any answer that is a success with a readable body, whether
    or not the page navigated, the dashboard's mount check finds the
    session and does not redirect.  After any other answer the storage
    is what it was, so a browser without a stored session is still
    redirected to the login page by the dashboard. *)
Theorem login_then_dashboard
    (r : Response Login.LoginData) (pg : Login.Page) (st : State) :
  let storage := Login.localStorage (Login.state_of (Login.handleLogin r pg)) in
  let mounted := state_of (authCheckEffect (storedAuthenticated storage) st) in
  ((∃ data, r = HttpOk (Some data)) →
     storedAuthenticated storage = true ∧
     isAuthenticated mounted = Some true ∧
     render mounted ≠ RedirectToLogin) ∧
  ((∀ data, r ≠ HttpOk (Some data)) →
     storage = Login.localStorage pg ∧
     (storedAuthenticated (Login.localStorage pg) = false →
      render mounted = RedirectToLogin)).
Proof.
  cbn zeta. split.
  - intros [data ->]. unfold storedAuthenticated, authCheckEffect, render.
    login_run. run.
    assert (Hs : Login.localStorage
                   (Login.handleLogin (HttpOk (Some data)) pg).1.2
                 !! "admin_authenticated"%string = Some "true"%string).
    { login_run. destruct data as [|m [uid|]]; cbn;
        rewrite ?lookup_insert_ne by done; apply lookup_insert_eq. }
    login_run. rewrite (bool_decide_eq_true_2 _ Hs). cbn.
    repeat split; destruct (isLoading st); done.
  - intros Hr.
    assert (Hs : Login.localStorage (Login.state_of (Login.handleLogin r pg))
                 = Login.localStorage pg).
    { login_run. destruct r as [|[data|]|code [[|m u]|]]; try reflexivity.
      by destruct (Hr data). }
    split; [exact Hs|]. rewrite Hs. intros ->.
    unfold authCheckEffect, render. run. reflexivity.
Qed.

Lemma login_then_dashboard_witness :
  let pg := Login.initialPage ∅ in
  render (state_of (authCheckEffect
            (storedAuthenticated
               (Login.localStorage
                  (Login.state_of (Login.handleLogin (HttpNotOk 401 None) pg))))
            initialState))
  = RedirectToLogin.
Proof.
  refine (proj2 (proj2 (login_then_dashboard (HttpNotOk 401 None)
                          (Login.initialPage ∅) initialState) _) _).
  - intros data. discriminate.
  - reflexivity.
Defined.
